(** * The monthly report filler of [main.py]

    A shallow embedding of [generate_monthly_report] and of the helpers it
    calls ([create_table_with_header], [insert_title_table], [set_borders],
    [set_cell_background]), over a model of the document tree the program
    edits, of the Python string operations it uses and of the files it
    reads and writes. *)

From stdpp Require Import gmap strings list.
From Stdlib Require Import Strings.Ascii ZArith Lia.

Open Scope string_scope.

(** ** Python strings

    [str] values are modelled as [string]; the operations below are the
    ones the program calls: [x in s], [s.replace(old, new)], [s.lower()],
    [sep.join(l)], [s.rfind(c)] and slicing. *)

Module Str.

(** [x in s]: [x] occurs in [s] as a substring. *)
Fixpoint contains (x s : string) : bool :=
  String.prefix x s ||
  match s with
  | EmptyString => false
  | String _ s' => contains x s'
  end.

(** [s.replace(old, new)] for a non-empty [old]: occurrences are found
    from the left and do not overlap; [skip] counts the characters of the
    occurrence just replaced that are still to be dropped. *)
Fixpoint replace_from (old new : string) (skip : nat) (s : string) : string :=
  match s with
  | EmptyString => EmptyString
  | String c s' =>
      match skip with
      | S k => replace_from old new k s'
      | O =>
          if String.prefix old s
          then new ++ replace_from old new (String.length old - 1) s'
          else String c (replace_from old new O s')
      end
  end.

(** With an empty [old], Python puts [new] before every character and at
    the end. *)
Fixpoint around (new s : string) : string :=
  match s with
  | EmptyString => new
  | String c s' => new ++ String c (around new s')
  end.

Definition replace (old new s : string) : string :=
  match old with
  | EmptyString => around new s
  | String _ _ => replace_from old new O s
  end.

(** [sep.join(l)] *)
Fixpoint join (sep : string) (l : list string) : string :=
  match l with
  | [] => EmptyString
  | [s] => s
  | s :: l' => s ++ sep ++ join sep l'
  end.

(** [s.lower()] on the ASCII letters. The only use is the comparison of a
    file extension with [.doc] and [.docx]; no character outside ASCII
    lowercases to one of the letters d, o, c, x. *)
Definition lower_char (c : ascii) : ascii :=
  let n := nat_of_ascii c in
  if (65 <=? n)%nat && (n <=? 90)%nat then ascii_of_nat (n + 32) else c.

Fixpoint lower (s : string) : string :=
  match s with
  | EmptyString => EmptyString
  | String c s' => String (lower_char c) (lower s')
  end.

(** [s.rfind(c)] for a one-character [c], as an index counted from [i]
    for the first character of [s]; [-1] when [c] does not occur. *)
Fixpoint rfind_from (c : ascii) (s : string) (i : Z) : Z :=
  match s with
  | EmptyString => (-1)%Z
  | String a s' =>
      let r := rfind_from c s' (i + 1) in
      if (0 <=? r)%Z then r else if Ascii.eqb a c then i else (-1)%Z
  end.

Definition rfind (c : ascii) (s : string) : Z := rfind_from c s 0.

(** [s[:n]] and [s[n:]] *)
Fixpoint take (n : nat) (s : string) : string :=
  match n, s with
  | S k, String c s' => String c (take k s')
  | _, _ => EmptyString
  end.

Fixpoint drop (n : nat) (s : string) : string :=
  match n, s with
  | S k, String _ s' => drop k s'
  | _, _ => s
  end.

(** [s] has a character other than [c] among the [n] characters that
    start at index [i]. *)
Fixpoint other_char_in (c : ascii) (s : string) (i n : nat) : bool :=
  match n with
  | O => false
  | S k =>
      match String.get i s with
      | Some a => if Ascii.eqb a c then other_char_in c s (S i) k else true
      | None => other_char_in c s (S i) k
      end
  end.

End Str.

(** [os.path.splitext] (POSIX flavour, [genericpath._splitext] with
    separator [/] and extension separator [.]): the extension starts at
    the last dot of the last path component, leading dots of that
    component not counting. *)
Definition splitext (p : string) : string * string :=
  let sepIndex := Str.rfind "/"%char p in
  let dotIndex := Str.rfind "."%char p in
  if (sepIndex <? dotIndex)%Z
     && Str.other_char_in "."%char p (Z.to_nat (sepIndex + 1))
          (Z.to_nat (dotIndex - (sepIndex + 1)))
  then (Str.take (Z.to_nat dotIndex) p, Str.drop (Z.to_nat dotIndex) p)
  else (p, EmptyString).

(** ** Exceptions and results

    A Python call either returns or raises. All the exceptions below are
    subclasses of [Exception]; [str_exn] is [str(e)]. *)

Inductive exn :=
  | KeyError (key : string)
  | IndexError
  | ValueError (msg : string)
  | PackageNotFoundError (path : string)
  | PermissionError (path : string)
  | IsADirectoryError (path : string).

Definition str_exn (e : exn) : string :=
  match e with
  | KeyError k => "'" ++ k ++ "'"
  | IndexError => "list index out of range"
  | ValueError m => m
  | PackageNotFoundError p => "Package not found at '" ++ p ++ "'"
  | PermissionError p => "[Errno 13] Permission denied: '" ++ p ++ "'"
  | IsADirectoryError p => "[Errno 21] Is a directory: '" ++ p ++ "'"
  end.

Inductive py (A : Type) :=
  | Returned (a : A)
  | Raised (e : exn).
Arguments Returned {A} a.
Arguments Raised {A} e.

Global Instance py_ret : MRet py := fun A a => Returned a.

Global Instance py_bind : MBind py := fun A B k m =>
  match m with
  | Returned a => k a
  | Raised e => Raised e
  end.

(** [for x in l: st = body(st, x)], leaving the loop at the first
    exception. *)
Fixpoint for_each {A S} (l : list A) (body : S -> A -> py S) (st : S) : py S :=
  match l with
  | [] => Returned st
  | x :: l' => st' ← body st x; for_each l' body st'
  end.

(** [l[i]] *)
Definition getitem {A} (l : list A) (i : nat) : py A :=
  match l !! i with
  | Some x => Returned x
  | None => Raised IndexError
  end.

(** [d[k]] on a dictionary *)
Definition dict_get (d : gmap string string) (k : string) : py string :=
  match d !! k with
  | Some v => Returned v
  | None => Raised (KeyError k)
  end.

(** ** The document tree

    The part of a word-processor document the program reads and edits, as
    the document library presents it: a body of block-level children,
    paragraphs made of runs, tables made of rows of cells. A text that is
    written is read back as it was written: carriage returns, which the
    library reads back as line feeds, and characters that the file format
    cannot hold are left out of account. *)

Inductive alignment := LEFT | CENTER | RIGHT | JUSTIFY.

(** A run: a text and its character formatting. *)
Record run := { r_text : string; r_bold : option bool }.

(** A paragraph: its properties (style, alignment) and its runs. *)
Record paragraph := {
  p_style : option string;
  p_alignment : option alignment;
  p_runs : list run
}.

(** [para.text] *)
Definition para_text (p : paragraph) : string :=
  foldr (fun r acc => r_text r ++ acc) EmptyString (p_runs p).

(** [para.text = t]: the content is cleared, the paragraph properties
    stay, and one new run holds the text. *)
Definition set_para_text (t : string) (p : paragraph) : paragraph :=
  {| p_style := p_style p;
     p_alignment := p_alignment p;
     p_runs := [ {| r_text := t; r_bold := None |} ] |}.

(** [para.alignment = a] *)
Definition set_alignment (a : alignment) (p : paragraph) : paragraph :=
  {| p_style := p_style p; p_alignment := Some a; p_runs := p_runs p |}.

(** [para.add_run(t)] followed by [run.bold = True] *)
Definition add_bold_run (t : string) (p : paragraph) : paragraph :=
  {| p_style := p_style p;
     p_alignment := p_alignment p;
     p_runs := p_runs p ++ [ {| r_text := t; r_bold := Some true |} ] |}.

(** A new, empty paragraph. *)
Definition new_paragraph : paragraph :=
  {| p_style := None; p_alignment := None; p_runs := [] |}.

(** A cell holds paragraphs and, possibly, nested tables; the program
    never looks into a nested table, which stays opaque here. *)
Inductive cell_item :=
  | CellPara (p : paragraph)
  | CellTable (tag : nat).

Record cell := {
  c_width : option Z;
  c_shd : list string;
  c_items : list cell_item
}.

(** [cell.paragraphs] *)
Definition cell_paragraphs (c : cell) : list paragraph :=
  omap (fun it => match it with CellPara p => Some p | CellTable _ => None end)
       (c_items c).

Definition newline : string := String "010"%char EmptyString.

(** [cell.text]: the texts of the cell's paragraphs, one per line. *)
Definition cell_text (c : cell) : string :=
  Str.join newline (map para_text (cell_paragraphs c)).

(** [cell.text = t]: all the content of the cell is removed (its
    properties stay) and one new paragraph with one run holds the text. *)
Definition set_cell_text (t : string) (c : cell) : cell :=
  {| c_width := c_width c;
     c_shd := c_shd c;
     c_items := [ CellPara (set_para_text t new_paragraph) ] |}.

(** [cell.width = w] *)
Definition set_cell_width (w : Z) (c : cell) : cell :=
  {| c_width := Some w; c_shd := c_shd c; c_items := c_items c |}.

(** [for p in cell.paragraphs: p.alignment = a] *)
Definition align_cell (a : alignment) (c : cell) : cell :=
  {| c_width := c_width c;
     c_shd := c_shd c;
     c_items := map (fun it => match it with
                               | CellPara p => CellPara (set_alignment a p)
                               | CellTable n => CellTable n
                               end) (c_items c) |}.

(** [set_cell_background(cell, color_hex)]: one more shading element. *)
Definition set_cell_background (color_hex : string) (c : cell) : cell :=
  {| c_width := c_width c;
     c_shd := c_shd c ++ [color_hex];
     c_items := c_items c |}.

(** [cell.paragraphs[0].add_run(t)] with [run.bold = True] *)
Fixpoint first_para_add_bold_run (t : string) (items : list cell_item)
  : py (list cell_item) :=
  match items with
  | [] => Raised IndexError
  | CellPara p :: rest => Returned (CellPara (add_bold_run t p) :: rest)
  | CellTable n :: rest =>
      rest' ← first_para_add_bold_run t rest; Returned (CellTable n :: rest')
  end.

Definition cell_add_bold_run (t : string) (c : cell) : py cell :=
  items ← first_para_add_bold_run t (c_items c);
  Returned {| c_width := c_width c; c_shd := c_shd c; c_items := items |}.

Record border := {
  b_edge : string; b_val : string; b_sz : string;
  b_space : string; b_color : string
}.

(** A table: its properties (the [jc] elements, the style name, the
    borders), the widths of its grid columns and its rows. Tables are
    taken without merged cells, so that [row.cells] lists each cell of a
    row once. *)
Record table := {
  t_jc : list string;
  t_style : option string;
  t_borders : option (list border);
  t_grid : list Z;
  t_rows : list (list cell)
}.

Definition new_cell (w : Z) : cell :=
  {| c_width := Some w; c_shd := []; c_items := [CellPara new_paragraph] |}.

(** The table [doc.add_table(rows, cols)] creates: the block width is
    shared evenly among the columns. *)
Definition new_tbl (rows cols : nat) (width : Z) : table :=
  let w := (width / Z.of_nat cols)%Z in
  {| t_jc := [];
     t_style := None;
     t_borders := None;
     t_grid := replicate cols w;
     t_rows := replicate rows (replicate cols (new_cell w)) |}.

(** [table.add_row()]: one new cell for each grid column. *)
Definition add_row (t : table) : table :=
  {| t_jc := t_jc t; t_style := t_style t; t_borders := t_borders t;
     t_grid := t_grid t;
     t_rows := t_rows t ++ [map new_cell (t_grid t)] |}.

Definition set_rows (rows : list (list cell)) (t : table) : table :=
  {| t_jc := t_jc t; t_style := t_style t; t_borders := t_borders t;
     t_grid := t_grid t; t_rows := rows |}.

(** [f] applied to [table.rows[r].cells[c]], in place. *)
Definition update_cell (r c : nat) (f : cell -> py cell) (t : table) : py table :=
  row ← getitem (t_rows t) r;
  x ← getitem row c;
  x' ← f x;
  Returned (set_rows (<[r := <[c := x']> row]> (t_rows t)) t).

(** [set_borders(table)]: six single lines, whatever borders there were. *)
Definition set_borders (t : table) : table :=
  {| t_jc := t_jc t; t_style := t_style t;
     t_borders :=
       Some (map (fun border_name =>
                    {| b_edge := border_name; b_val := "single"; b_sz := "5";
                       b_space := "0"; b_color := "#bcbcbc" |})
                 ["top"; "left"; "bottom"; "right"; "insideH"; "insideV"]);
     t_grid := t_grid t; t_rows := t_rows t |}.

Definition set_style (name : string) (t : table) : table :=
  {| t_jc := t_jc t; t_style := Some name; t_borders := t_borders t;
     t_grid := t_grid t; t_rows := t_rows t |}.

Definition append_jc (val : string) (t : table) : table :=
  {| t_jc := t_jc t ++ [val]; t_style := t_style t; t_borders := t_borders t;
     t_grid := t_grid t; t_rows := t_rows t |}.

(** The children of the body. Each has an identity ([b_id]), as the
    elements of the tree do: the program finds a paragraph again by
    identity after the body has changed. The section properties that
    close a body are left out: a new table is put ahead of them and no
    index the program uses reaches them. *)
Inductive content :=
  | Para (p : paragraph)
  | Tbl (t : table)
  | Other (tag : string).

Record block := { b_id : nat; b_content : content }.

Record document := {
  d_body : list block;
  d_styles : list string;
  d_block_width : Z
}.

Definition set_body (body : list block) (d : document) : document :=
  {| d_body := body; d_styles := d_styles d; d_block_width := d_block_width d |}.

(** [doc.paragraphs]: the paragraphs that are children of the body, each
    with the identity of its element. *)
Definition paragraphs (body : list block) : list (nat * paragraph) :=
  omap (fun b => match b_content b with
                 | Para p => Some (b_id b, p)
                 | _ => None
                 end) body.

(** The identity of a new element differs from those in the tree. *)
Definition fresh (body : list block) : nat := S (max_list (map b_id body)).

(** [parent.index(element)] *)
Fixpoint index_of (id : nat) (body : list block) : py nat :=
  match body with
  | [] => Raised (ValueError "Element is not a child of this node.")
  | b :: rest =>
      if (b_id b =? id)%nat then Returned O
      else (i ← index_of id rest; Returned (S i))
  end.

(** [parent.remove(element)] *)
Fixpoint remove_child (id : nat) (body : list block) : list block :=
  match body with
  | [] => []
  | b :: rest => if (b_id b =? id)%nat then rest else b :: remove_child id rest
  end.

Fixpoint insert_before (id : nat) (x : block) (body : list block) : list block :=
  match body with
  | [] => [x]
  | b :: rest => if (b_id b =? id)%nat then x :: b :: rest
                 else b :: insert_before id x rest
  end.

(** [parent.insert(index, element)]: the element goes ahead of the child
    now at [index], or last when there is none; an element that is
    already a child is moved. *)
Definition insert_child (index : nat) (x : block) (body : list block) : list block :=
  match body !! index with
  | None => remove_child (b_id x) body ++ [x]
  | Some b =>
      if (b_id b =? b_id x)%nat then body
      else insert_before (b_id b) x (remove_child (b_id x) body)
  end.

(** ** The program *)

(** [Inches(x)] in English Metric Units (914400 to the inch), for [x]
    given in tenths of an inch. *)
Definition Inches (tenths : Z) : Z := (tenths * 91440)%Z.

(** [create_table_with_header(doc, headers, widths)]. The value returned
    is the table itself; [doc.add_table] also makes it the last child of
    the body, which the caller accounts for when it moves the table. *)
Definition create_table_with_header (doc : document) (headers : list string)
    (widths : list Z) : py table :=
  let table := new_tbl 1 (length headers) (d_block_width doc) in
  let table := append_jc "center" table in
  let table :=
    if bool_decide ("Table Grid" ∈ d_styles doc)
    then set_style "Table Grid" table
    else set_borders table in
  for_each (imap (fun i header => (i, header)) headers)
    (fun table '(i, header) =>
       table ← update_cell 0 i (cell_add_bold_run header) table;
       w ← getitem widths i;
       table ← update_cell 0 i (fun c => Returned (set_cell_width w c)) table;
       update_cell 0 i (fun c => Returned (set_cell_background "#f4f4f4" c)) table)
    table.

(** [insert_title_table(doc, parent, index)]: a paragraph with one run
    and an empty text, put at [index]. *)
Definition anchor : paragraph :=
  {| p_style := None; p_alignment := None;
     p_runs := [ {| r_text := EmptyString; r_bold := None |} ] |}.

Definition anchor_block (id : nat) : block :=
  {| b_id := id; b_content := Para anchor |}.

Definition insert_title_table (parent : list block) (index : nat) : list block :=
  insert_child index (anchor_block (fresh parent)) parent.

Record args := {
  report_filepath : string;
  month : string;
  activities : string;
  conclusiones : string;
  recommendations : string;
  title_activities : list (gmap string string);
  description_activities : list (gmap string string)
}.

(** The body of [for item in title_activities]. *)
Definition add_title_row (col1_width col2_width : Z) (tbl : table)
    (item : gmap string string) : py table :=
  let table := add_row tbl in
  let r := (length (t_rows table) - 1)%nat in
  v ← dict_get item "actividad";
  table ← update_cell r 0 (fun c => Returned (set_cell_text v c)) table;
  v ← dict_get item "mes";
  table ← update_cell r 1 (fun c => Returned (set_cell_text v c)) table;
  table ← update_cell r 0 (fun c => Returned (set_cell_width col1_width c)) table;
  update_cell r 1 (fun c => Returned (set_cell_width col2_width c)) table.

(** The body of [for item in description_activities]. *)
Definition add_description_row (col_widths : list Z) (tbl : table)
    (item : gmap string string) : py table :=
  let table := add_row tbl in
  let r := (length (t_rows table) - 1)%nat in
  v ← dict_get item "actividad";
  table ← update_cell r 0 (fun c => Returned (set_cell_text v c)) table;
  v ← dict_get item "descripcion";
  table ← update_cell r 1 (fun c => Returned (set_cell_text v c)) table;
  v ← dict_get item "verificador";
  table ← update_cell r 2 (fun c => Returned (set_cell_text v c)) table;
  for_each (imap (fun j width => (j, width)) col_widths)
    (fun table '(j, width) =>
       update_cell r j (fun c => Returned (set_cell_width width c)) table)
    table.

Definition title_marker : string := "{titleActivities}".
Definition description_marker : string := "{descriptionActivities}".

(** The table that takes the place of a [{titleActivities}] paragraph. *)
Definition title_table (a : args) (doc : document) : py table :=
  let col1_width := Inches 45 in
  let col2_width := Inches 15 in
  table ← create_table_with_header doc ["ACTIVIDADES"; "MESES"]
            [col1_width; col2_width];
  for_each (title_activities a) (add_title_row col1_width col2_width) table.

(** The table that takes the place of a [{descriptionActivities}]
    paragraph. *)
Definition description_table (a : args) (doc : document) : py table :=
  let col_widths := [Inches 25; Inches 30; Inches 15] in
  let headers := ["Actividad Planificada"; "Actividad Ejecutada"; "Verificador"] in
  table ← create_table_with_header doc headers col_widths;
  for_each (description_activities a) (add_description_row col_widths) table.

(** The table as [doc.add_table] has left it, last in the body, moved by
    [parent.insert(index + 1, table._element)]. *)
Definition table_block (id : nat) (t : table) : block :=
  {| b_id := id; b_content := Tbl t |}.

Definition place_table (parent : list block) (index : nat) (tbl : table)
  : list block :=
  let element := table_block (fresh parent) tbl in
  insert_child (index + 1) element (parent ++ [element]).

(** The body of the first loop, over the paragraphs [doc.paragraphs]
    listed when the loop began. No paragraph is written to in this loop,
    so the text of [para] is the one listed, also once [para] is out of
    the tree. *)
Definition table_marker_step (a : args) (st : document * bool)
    (h : nat * paragraph) : py (document * bool) :=
  let '(doc, replaced) := st in
  let '(id, para) := h in
  if Str.contains title_marker (para_text para)
     || Str.contains description_marker (para_text para)
  then
    let parent := d_body doc in
    index ← index_of id parent;
    let parent := remove_child id parent in
    parent ←
      (if Str.contains title_marker (para_text para) then
         let parent := insert_title_table parent index in
         table ← title_table a doc;
         Returned (place_table parent index table)
       else if Str.contains description_marker (para_text para) then
         let parent := insert_title_table parent index in
         table ← description_table a doc;
         Returned (place_table parent index table)
       else Returned parent);
    Returned (set_body parent doc, true)
  else Returned (doc, replaced).

Definition table_pass (a : args) (doc : document) : py (document * bool) :=
  for_each (paragraphs (d_body doc)) (table_marker_step a) (doc, false).

Definition text_markers : list string :=
  ["{activities}"; "{month}"; "{conclusions}"; "{recommendations}"].

(** [any(x in text for x in [...])] *)
Definition any_in (markers : list string) (text : string) : bool :=
  existsb (fun x => Str.contains x text) markers.

(** The body of the second loop, [for para in doc.paragraphs]. *)
Definition replace_in_paragraph (a : args) (para : paragraph) (replaced : bool)
  : paragraph * bool :=
  if any_in text_markers (para_text para) then
    let para :=
      if Str.contains "{activities}" (para_text para)
      then set_alignment JUSTIFY
             (set_para_text (Str.replace "{activities}" (activities a) (para_text para)) para)
      else para in
    let para :=
      if Str.contains "{month}" (para_text para)
      then set_para_text (Str.replace "{month}" (month a) (para_text para)) para
      else para in
    let para :=
      if Str.contains "{conclusions}" (para_text para)
      then set_alignment JUSTIFY
             (set_para_text (Str.replace "{conclusions}" (conclusiones a) (para_text para)) para)
      else para in
    let para :=
      if Str.contains "{recommendations}" (para_text para)
      then set_alignment JUSTIFY
             (set_para_text (Str.replace "{recommendations}" (recommendations a) (para_text para)) para)
      else para in
    (para, true)
  else (para, replaced).

(** The second loop: each paragraph of the body, in order, is edited in
    place. *)
Fixpoint paragraph_pass (a : args) (body : list block) (replaced : bool)
  : list block * bool :=
  match body with
  | [] => ([], replaced)
  | b :: rest =>
      match b_content b with
      | Para para =>
          let '(para, replaced) := replace_in_paragraph a para replaced in
          let '(rest, replaced) := paragraph_pass a rest replaced in
          ({| b_id := b_id b; b_content := Para para |} :: rest, replaced)
      | _ =>
          let '(rest, replaced) := paragraph_pass a rest replaced in
          (b :: rest, replaced)
      end
  end.

(** The body of the third loop, for one cell. *)
Definition replace_in_cell (a : args) (c : cell) (replaced : bool)
  : cell * bool :=
  if any_in text_markers (cell_text c) then
    let cell :=
      if Str.contains "{activities}" (cell_text c)
      then align_cell JUSTIFY
             (set_cell_text (Str.replace "{activities}" (activities a) (cell_text c)) c)
      else c in
    let cell :=
      if Str.contains "{month}" (cell_text cell)
      then set_cell_text (Str.replace "{month}" (month a) (cell_text cell)) cell
      else cell in
    let cell :=
      if Str.contains "{conclusions}" (cell_text cell)
      then align_cell JUSTIFY
             (set_cell_text (Str.replace "{conclusions}" (conclusiones a) (cell_text cell)) cell)
      else cell in
    let cell :=
      if Str.contains "{recommendations}" (cell_text cell)
      then align_cell JUSTIFY
             (set_cell_text (Str.replace "{recommendations}" (recommendations a) (cell_text cell)) cell)
      else cell in
    (cell, true)
  else (c, replaced).

(** [for cell in row.cells] *)
Fixpoint row_pass (a : args) (row : list cell) (replaced : bool)
  : list cell * bool :=
  match row with
  | [] => ([], replaced)
  | cell :: rest =>
      let '(cell, replaced) := replace_in_cell a cell replaced in
      let '(rest, replaced) := row_pass a rest replaced in
      (cell :: rest, replaced)
  end.

(** [for row in table.rows] *)
Fixpoint rows_pass (a : args) (rows : list (list cell)) (replaced : bool)
  : list (list cell) * bool :=
  match rows with
  | [] => ([], replaced)
  | row :: rest =>
      let '(row, replaced) := row_pass a row replaced in
      let '(rest, replaced) := rows_pass a rest replaced in
      (row :: rest, replaced)
  end.

(** The third loop, [for table in doc.tables]: the tables that are
    children of the body when the loop begins. *)
Fixpoint tables_pass (a : args) (body : list block) (replaced : bool)
  : list block * bool :=
  match body with
  | [] => ([], replaced)
  | b :: rest =>
      match b_content b with
      | Tbl table =>
          let '(rows, replaced) := rows_pass a (t_rows table) replaced in
          let '(rest, replaced) := tables_pass a rest replaced in
          ({| b_id := b_id b; b_content := Tbl (set_rows rows table) |} :: rest,
           replaced)
      | _ =>
          let '(rest, replaced) := tables_pass a rest replaced in
          (b :: rest, replaced)
      end
  end.

(** The three loops on the open document: the tree they leave and the
    flag [replaced]. *)
Definition fill (a : args) (doc : document) : py (document * bool) :=
  '(doc, replaced) ← table_pass a doc;
  let '(body, replaced) := paragraph_pass a (d_body doc) replaced in
  let '(body, replaced) := tables_pass a body replaced in
  Returned (set_body body doc, replaced).

(** ** Files

    A path names a directory, or a file that the document library either
    opens as a document or fails on with some exception; a file may be
    read-only. The log keeps the calls that open or save a document. *)

Inductive file_content :=
  | Package (doc : document)
  | NotPackage (e : exn).

Inductive node :=
  | Dir
  | File (c : file_content) (writable : bool).

Inductive event :=
  | Opened (path : string)
  | Saved (path : string).

Record world := { w_fs : gmap string node; w_log : list event }.

(** [os.path.isfile(path)] *)
Definition isfile (w : world) (path : string) : bool :=
  match w_fs w !! path with
  | Some (File _ _) => true
  | _ => false
  end.

(** [Document(path)] *)
Definition Document (w : world) (path : string) : py document * world :=
  let w' := {| w_fs := w_fs w; w_log := w_log w ++ [Opened path] |} in
  match w_fs w !! path with
  | Some (File (Package doc) _) => (Returned doc, w')
  | Some (File (NotPackage e) _) => (Raised e, w')
  | _ => (Raised (PackageNotFoundError path), w')
  end.

(** [doc.save(path)] *)
Definition save (w : world) (doc : document) (path : string) : py unit * world :=
  let log := (w_log w ++ [Saved path])%list in
  match w_fs w !! path with
  | Some (File _ false) =>
      (Raised (PermissionError path), {| w_fs := w_fs w; w_log := log |})
  | Some Dir =>
      (Raised (IsADirectoryError path), {| w_fs := w_fs w; w_log := log |})
  | _ =>
      (Returned tt,
       {| w_fs := <[path := File (Package doc) true]> (w_fs w); w_log := log |})
  end.

(** The dictionaries the tool returns: [{"message": s}] or [{"error": s}]. *)
Inductive result :=
  | Message (s : string)
  | Error (s : string).

(** What is inside [try:]. *)
Definition report_body (a : args) (w : world) : py result * world :=
  let report_filepath := report_filepath a in
  if negb (isfile w report_filepath) then
    (Returned (Error ("File '" ++ report_filepath ++ "' does not exist.")), w)
  else
    let ext := Str.lower (splitext report_filepath).2 in
    if negb (bool_decide (ext ∈ [".doc"; ".docx"])) then
      (Returned (Error "Only DOC or DOCX files are supported."), w)
    else
      match Document w report_filepath with
      | (Raised e, w) => (Raised e, w)
      | (Returned doc, w) =>
          match fill a doc with
          | Raised e => (Raised e, w)
          | Returned (doc, replaced) =>
              if replaced then
                match save w doc report_filepath with
                | (Raised e, w) => (Raised e, w)
                | (Returned _, w) =>
                    (Returned (Message ("Replaced placeholders and saved '"
                                        ++ report_filepath ++ "'.")), w)
                end
              else
                (Returned (Message "No placeholders found in the document."), w)
          end
      end.

(** [generate_monthly_report]: the body under
    [try: ... except Exception as e: return {"error": str(e)}]. *)
Definition generate_monthly_report (a : args) (w : world) : py result * world :=
  match report_body a w with
  | (Raised e, w) => (Returned (Error (str_exn e)), w)
  | (Returned r, w) => (Returned r, w)
  end.

(** ** Markers

    A marker opens with a brace and has no other opening brace. No one of
    the six markers is a prefix of another. *)

Definition open_brace : ascii := "{"%char.

Fixpoint has_open (s : string) : bool :=
  match s with
  | EmptyString => false
  | String c s' => Ascii.eqb c open_brace || has_open s'
  end.

Definition shaped (m : string) : bool :=
  match m with
  | EmptyString => false
  | String c n => Ascii.eqb c open_brace && negb (has_open n)
  end.

Definition apart (m m' : string) : bool :=
  negb (String.prefix m m') && negb (String.prefix m' m).

(** [m] is a marker and so is every member of [ms], each of them either
    [m] itself or apart from it. *)
Definition compatible (m : string) (ms : list string) : bool :=
  shaped m
  && forallb (fun m' => shaped m' && (String.eqb m m' || apart m m')) ms.

Definition without (m : string) (ms : list string) : list string :=
  List.filter (fun x => negb (String.eqb m x)) ms.

Definition all_markers : list string :=
  text_markers ++ [title_marker; description_marker].

(** Every opening brace of [s] opens an occurrence of a member of [ms]. *)
Fixpoint opens_only (ms : list string) (s : string) : bool :=
  match s with
  | EmptyString => true
  | String c s' =>
      (negb (Ascii.eqb c open_brace)
       || existsb (fun m => String.prefix m s) ms)
      && opens_only ms s'
  end.

(** The text [text] with [marker] replaced where the program finds it,
    and the four replacements in the order the program makes them. *)
Definition substitute (marker value text : string) : string :=
  if Str.contains marker text then Str.replace marker value text else text.

Definition subst_text (a : args) (text : string) : string :=
  substitute "{recommendations}" (recommendations a)
    (substitute "{conclusions}" (conclusiones a)
       (substitute "{month}" (month a)
          (substitute "{activities}" (activities a) text))).

(** ** Notions the statements use *)

Definition ids (body : list block) : list nat := map b_id body.

Definition has_table_marker (p : paragraph) : bool :=
  Str.contains title_marker (para_text p)
  || Str.contains description_marker (para_text p).

(** [doc.tables] *)
Definition tables (body : list block) : list table :=
  omap (fun b => match b_content b with Tbl t => Some t | _ => None end) body.

(** The texts of the paragraphs of the body, and of the cells of the
    tables of the body. *)
Definition paragraph_texts (doc : document) : list string :=
  map (fun h => para_text h.2) (paragraphs (d_body doc)).

Definition cell_texts (doc : document) : list string :=
  map cell_text (concat (concat (map t_rows (tables (d_body doc))))).

(** What the first loop makes of the children of the body, [title] and
    [description] being the two tables as built: a paragraph with a table
    marker gives way to an anchor paragraph and a table, the title table
    when it has the title marker; the other children stay. *)
Inductive expands (title description : py table)
  : list block -> list block -> Prop :=
  | expands_nil : expands title description [] []
  | expands_keep b post mid :
      (forall p, b_content b = Para p -> has_table_marker p = false) ->
      expands title description post mid ->
      expands title description (b :: post) (b :: mid)
  | expands_title id p t i1 i2 post mid :
      Str.contains title_marker (para_text p) = true ->
      title = Returned t ->
      expands title description post mid ->
      expands title description
        ({| b_id := id; b_content := Para p |} :: post)
        (anchor_block i1 :: table_block i2 t :: mid)
  | expands_description id p t i1 i2 post mid :
      Str.contains title_marker (para_text p) = false ->
      Str.contains description_marker (para_text p) = true ->
      description = Returned t ->
      expands title description post mid ->
      expands title description
        ({| b_id := id; b_content := Para p |} :: post)
        (anchor_block i1 :: table_block i2 t :: mid).

(** The children [done], an anchor paragraph, the table [t] and the
    children [post], the two new elements with new identities. *)
Definition swapped (done post : list block) (t : table) : list block :=
  let i1 := fresh (done ++ post) in
  let i2 := fresh (done ++ anchor_block i1 :: post) in
  done ++ anchor_block i1 :: table_block i2 t :: post.

(** One of the four blocks of the second loop: the marker replaced in
    the text of the paragraph, which is then justified or not. *)
Definition write_paragraph (justify : bool) (marker value : string)
    (para : paragraph) : paragraph :=
  if Str.contains marker (para_text para) then
    let para' := set_para_text (Str.replace marker value (para_text para)) para in
    if justify then set_alignment JUSTIFY para' else para'
  else para.

(** The same for a cell of the third loop. *)
Definition write_cell (justify : bool) (marker value : string) (c : cell)
  : cell :=
  if Str.contains marker (cell_text c) then
    let c' := set_cell_text (Str.replace marker value (cell_text c)) c in
    if justify then align_cell JUSTIFY c' else c'
  else c.

(** What the second and third loops make of a child of the body. *)
Definition text_block (a : args) (b : block) : block :=
  match b_content b with
  | Para p =>
      {| b_id := b_id b; b_content := Para (replace_in_paragraph a p false).1 |}
  | Tbl t =>
      {| b_id := b_id b;
         b_content :=
           Tbl (set_rows
                  (map (map (fun c => (replace_in_cell a c false).1)) (t_rows t))
                  t) |}
  | Other _ => b
  end.

(** The two halves of [text_block]. *)
Definition para_block (a : args) (b : block) : block :=
  match b_content b with
  | Para p =>
      {| b_id := b_id b; b_content := Para (replace_in_paragraph a p false).1 |}
  | _ => b
  end.

Definition cells_block (a : args) (b : block) : block :=
  match b_content b with
  | Tbl t =>
      {| b_id := b_id b;
         b_content :=
           Tbl (set_rows
                  (map (map (fun c => (replace_in_cell a c false).1)) (t_rows t))
                  t) |}
  | _ => b
  end.

(** The flag the three loops leave for the children [body] of the
    document as opened and the children [mid] the first loop left. *)
Definition any_marker_found (body mid : list block) : bool :=
  existsb (fun h => has_table_marker h.2) (paragraphs body)
  || existsb (fun h => any_in text_markers (para_text h.2)) (paragraphs mid)
  || existsb (fun c => any_in text_markers (cell_text c))
       (concat (concat (map t_rows (tables mid)))).

(** None of the six markers occurs in the text of a paragraph of the
    body or of a cell of a table of the body. *)
Definition no_marker_left (doc : document) : bool :=
  forallb (fun t => negb (any_in all_markers t))
          (paragraph_texts doc ++ cell_texts doc).

(** ** Sample inputs *)

Definition text_paragraph (t : string) : paragraph :=
  {| p_style := None; p_alignment := None;
     p_runs := [ {| r_text := t; r_bold := None |} ] |}.

Definition text_cell (t : string) : cell :=
  {| c_width := None; c_shd := []; c_items := [CellPara (text_paragraph t)] |}.

Definition plain_table (rows : list (list cell)) : table :=
  {| t_jc := []; t_style := None; t_borders := None;
     t_grid := []; t_rows := rows |}.

Definition sample_document (body : list block) : document :=
  {| d_body := body; d_styles := ["Normal"]; d_block_width := 5486400 |}.

Definition sample_args (path : string) : args :=
  {| report_filepath := path;
     month := "Mayo";
     activities := "Se reviso el plan.";
     conclusiones := "Sin novedades.";
     recommendations := "Continuar.";
     title_activities := [ {[ "actividad" := "Plan"; "mes" := "Mayo" ]} ];
     description_activities :=
       [ {[ "actividad" := "Plan"; "descripcion" := "Hecho";
            "verificador" := "Acta" ]} ] |}.

Definition sample_world (path : string) (doc : document) : world :=
  {| w_fs := {[ path := File (Package doc) true ]}; w_log := [] |}.

(** A document without markers. *)
Definition doc_no_markers : document :=
  sample_document
    [ {| b_id := 0; b_content := Para (text_paragraph "Informe mensual") |};
      {| b_id := 1; b_content := Tbl (plain_table [[text_cell "Total"]]) |} ].

(** The cells a generated table is made of: a header cell and a data
    cell, and the table with its header row only. *)
Definition header_cell (header : string) (w : Z) : cell :=
  {| c_width := Some w; c_shd := ["#f4f4f4"];
     c_items := [CellPara (add_bold_run header new_paragraph)] |}.


Definition header_table (doc : document) (headers : list string)
    (widths : list Z) : table :=
  let t :=
    {| t_jc := ["center"]; t_style := None; t_borders := None;
       t_grid := replicate (length headers)
                   (d_block_width doc / Z.of_nat (length headers))%Z;
       t_rows := [zip_with header_cell headers widths] |} in
  if bool_decide ("Table Grid" ∈ d_styles doc)
  then set_style "Table Grid" t
  else set_borders t.

(** The value of a key that an item has. *)
Definition field (item : gmap string string) (k : string) : string :=
  default EmptyString (item !! k).




(** The document a path holds, if it holds one. *)
Definition saved_document (w : world) (path : string) : option document :=
  match w_fs w !! path with
  | Some (File (Package doc) _) => Some doc
  | _ => None
  end.


(** A document with the title marker, and arguments whose title row
    holds a text marker. *)
Definition doc_title_marker : document :=
  sample_document
    [ {| b_id := 0; b_content := Para (text_paragraph "{titleActivities}") |} ].

Definition args_marker_in_row (path : string) : args :=
  {| report_filepath := path;
     month := "Mayo";
     activities := "Se reviso el plan.";
     conclusiones := "Sin novedades.";
     recommendations := "Continuar.";
     title_activities := [ {[ "actividad" := "Plan de {month}"; "mes" := "Mayo" ]} ];
     description_activities := [] |}.









Definition centered_paragraph (runs : list run) : paragraph :=
  {| p_style := Some "Title"; p_alignment := Some CENTER; p_runs := runs |}.

(** A template with markers of all kinds. *)
Definition doc_template : document :=
  sample_document
    [ {| b_id := 0;
         b_content :=
           Para (centered_paragraph
                   [ {| r_text := "Informe de "; r_bold := Some true |};
                     {| r_text := "{month}"; r_bold := None |} ]) |};
      {| b_id := 1; b_content := Para (text_paragraph "{activities}") |};
      {| b_id := 2; b_content := Para (text_paragraph "Cuadro: {titleActivities}") |};
      {| b_id := 3;
         b_content :=
           Tbl (plain_table
                  [[ {| c_width := Some 100%Z; c_shd := [];
                        c_items :=
                          [CellPara (centered_paragraph
                                       [ {| r_text := "Mes: {month}";
                                            r_bold := None |} ])] |};
                     text_cell "{conclusions}";
                     text_cell "Total" ]]) |};
      {| b_id := 4; b_content := Para (text_paragraph "{descriptionActivities}") |};
      {| b_id := 5; b_content := Para (text_paragraph "{recommendations}") |};
      {| b_id := 6; b_content := Other "w:sdt" |} ].





(** Every opening brace of the text opens one of the six markers. *)
Definition template (t : string) : bool := opens_only all_markers t.

(** The four texts to put in have no opening brace. *)
Definition plain_values (a : args) : bool :=
  negb (has_open (activities a)) && negb (has_open (month a))
  && negb (has_open (conclusiones a)) && negb (has_open (recommendations a)).

Definition row_keys : list string :=
  ["actividad"; "mes"; "descripcion"; "verificador"].

(** The texts the rows give for the generated tables, and the texts of
    the document, are templates. *)
Definition template_rows (a : args) : bool :=
  forallb (fun item => forallb (fun k => template (field item k)) row_keys)
          (title_activities a ++ description_activities a).

Definition template_document (doc : document) : bool :=
  forallb template (paragraph_texts doc ++ cell_texts doc).


(** The replacements made one after the other on a list of markers. *)
Definition consumed (ms : list string) : list string :=
  without "{recommendations}"
    (without "{conclusions}" (without "{month}" (without "{activities}" ms))).

Definition consumable (ms : list string) : bool :=
  compatible "{activities}" ms
  && compatible "{month}" (without "{activities}" ms)
  && compatible "{conclusions}" (without "{month}" (without "{activities}" ms))
  && compatible "{recommendations}"
       (without "{conclusions}" (without "{month}" (without "{activities}" ms))).

(** The texts of the cells of the table are templates. *)
Definition template_cells (t : table) : Prop :=
  Forall (Forall (fun c => template (cell_text c) = true)) (t_rows t).

(** A file that is no document, a read-only file, and a title row
    without its [mes]. *)
Definition world_not_a_document (path : string) : world :=
  {| w_fs := {[ path := File (NotPackage (PackageNotFoundError path)) true ]};
     w_log := [] |}.

Definition world_read_only (path : string) (doc : document) : world :=
  {| w_fs := {[ path := File (Package doc) false ]}; w_log := [] |}.

Definition args_row_without_mes (path : string) : args :=
  {| report_filepath := path;
     month := "Mayo";
     activities := "Se reviso el plan.";
     conclusiones := "Sin novedades.";
     recommendations := "Continuar.";
     title_activities := [ {[ "actividad" := "Plan" ]} ];
     description_activities := [] |}.

(** Arguments whose month is itself a marker, or is empty. *)
Definition args_with_month (path m : string) : args :=
  {| report_filepath := path;
     month := m;
     activities := "Se reviso el plan.";
     conclusiones := "Sin novedades.";
     recommendations := "Continuar.";
     title_activities := [];
     description_activities := [] |}.

(** The same text with [{activities}] and [{month}] in a paragraph of the
    body and in a table cell. *)
Definition doc_activities_and_month : document :=
  sample_document
    [ {| b_id := 0; b_content := Para (text_paragraph "{activities} ({month})") |};
      {| b_id := 1;
         b_content := Tbl (plain_table [[text_cell "{activities} ({month})"]]) |} ].

(** ** More notions for the filler *)


(** The template after the first loop. *)
Definition doc_template_tables : document :=
  Eval vm_compute in
    match table_pass (sample_args "/informes/mayo.docx") doc_template with
    | Returned (doc, _) => doc
    | Raised _ => doc_template
    end.

(** The message of success for a path. *)
Definition success_message (path : string) : string :=
  "Replaced placeholders and saved '" ++ path ++ "'.".

(** Two paragraphs with the same properties and the same text, whatever
    their runs. *)
Definition same_text (p1 p2 : paragraph) : Prop :=
  p_style p1 = p_style p2
  /\ p_alignment p1 = p_alignment p2
  /\ para_text p1 = para_text p2.

(** The text [Mes: {month}] in one run and cut into three runs, the
    marker across two of them. *)
Definition paragraph_one_run : paragraph := text_paragraph "Mes: {month}".

Definition paragraph_three_runs : paragraph :=
  {| p_style := None; p_alignment := None;
     p_runs := [ {| r_text := "Mes: {mo"; r_bold := Some true |};
                 {| r_text := "nth"; r_bold := None |};
                 {| r_text := "}"; r_bold := Some false |} ] |}.







(** ** The tools on folders

    [change_month_in_name] and [extract_text_from_pdfs] work on the names
    of a folder. The file system is the one of [world]; what the tools ask
    of the operating system and of the PDF reader beyond [isfile] and
    [isdir] is kept as an interface. A call that raises is given by
    [str(e)] of its exception, the only thing the tools use of it. *)

Record system := {
  (* [os.listdir(path)]: the names in a directory, in any order. *)
  os_listdir : world -> string -> string + list string;
  (* [os.rename(src, dst)]: the world after the call. A call that raises
     leaves the world as it was. *)
  os_rename : world -> string -> string -> string + world;
  (* [pdfplumber.open(path)] and [page.extract_text()] on each of its
     pages, [None] for a page without text. The exception may be raised
     at any page. *)
  pdf_pages : world -> string -> string + list (option string)
}.

(** [os.path.isdir(path)] *)
Definition isdir (w : world) (path : string) : bool :=
  match w_fs w !! path with
  | Some Dir => true
  | _ => false
  end.

(** [s.endswith(suffix)] *)
Definition endswith (suffix s : string) : bool :=
  (String.length suffix <=? String.length s)%nat
  && String.eqb (Str.drop (String.length s - String.length suffix) s) suffix.

(** [os.path.join(a, b)] (POSIX flavour) *)
Definition path_join (a b : string) : string :=
  if String.prefix "/" b then b
  else if String.eqb a EmptyString || endswith "/" a then a ++ b
  else a ++ "/" ++ b.


(** *** The pattern of month names

    The pattern is a group of literal alternatives, compiled with
    [re.IGNORECASE]. The engine tries the positions of the subject from
    the left and, at a position, the alternatives in the order they are
    written; the first that matches is the match. Letters are compared
    after [Str.lower_char]: among the characters a [string] holds, only
    the ASCII letters have another case that is an ASCII letter. *)






(** *** [change_month_in_name] *)







Definition rename_error (filename e : string) : result :=
  Error ("Error renaming '" ++ filename ++ "': " ++ e).



(** *** [extract_text_from_pdfs] *)

Definition is_pdf (f : string) : bool := endswith ".pdf" (Str.lower f).

(** [text += page.extract_text() or ""] on the pages. *)
Definition page_text (t : option string) : string :=
  match t with
  | Some s => s
  | None => EmptyString
  end.

Definition pdf_text (pages : list (option string)) : string :=
  fold_left (fun text page => text ++ page_text page) pages EmptyString.

(** The value the tool stores for a file. *)
Definition extracted_entry (sys : system) (w : world) (folder_path filename : string)
  : string :=
  match pdf_pages sys w (path_join folder_path filename) with
  | inr pages => pdf_text pages
  | inl e => "Error extracting text: " ++ e
  end.

(** The dictionary the tool returns. *)
Definition extract_text_from_pdfs (sys : system) (folder_path : string)
    (w : world) : gmap string string :=
  if negb (isdir w folder_path) then
    {[ "error" := "Folder '" ++ folder_path ++ "' does not exist." ]}
  else
    match os_listdir sys w folder_path with
    | inl e => {[ "error" := e ]}
    | inr names =>
        let pdf_files := List.filter is_pdf names in
        match pdf_files with
        | [] => {[ "error" := "No PDF files found in the folder." ]}
        | _ =>
            fold_left
              (fun extracted filename =>
                 <[ filename := extracted_entry sys w folder_path filename ]>
                   extracted)
              pdf_files ∅
        end
    end.

(** *** A system for the examples

    The names of a folder are the keys of the file system below it, in
    the order of the keys; a file is renamed as POSIX does (a file at the
    destination is replaced, a directory there refuses), a directory is
    not; one file is a PDF of three pages, the second without text. *)

Definition entry_name (folder_path p : string) : option string :=
  let prefix := path_join folder_path EmptyString in
  if String.prefix prefix p
     && negb (String.eqb p prefix)
     && negb (Str.contains "/" (Str.drop (String.length prefix) p))
  then Some (Str.drop (String.length prefix) p)
  else None.

Definition sample_listdir (w : world) (path : string) : string + list string :=
  inr (omap (fun kv => entry_name path kv.1) (map_to_list (w_fs w))).

Definition sample_rename (w : world) (src dst : string) : string + world :=
  match w_fs w !! src with
  | Some (File c writable) =>
      match w_fs w !! dst with
      | Some Dir =>
          inl ("[Errno 21] Is a directory: '" ++ src ++ "' -> '" ++ dst ++ "'")
      | _ =>
          inr {| w_fs := <[ dst := File c writable ]> (delete src (w_fs w));
                 w_log := w_log w |}
      end
  | Some Dir =>
      inl ("[Errno 1] Operation not permitted: '" ++ src ++ "' -> '" ++ dst ++ "'")
  | None =>
      inl ("[Errno 2] No such file or directory: '" ++ src ++ "' -> '" ++ dst ++ "'")
  end.

Definition sample_pdf_pages (w : world) (path : string)
  : string + list (option string) :=
  if String.eqb path "/informes/informe_mayo_2024.pdf"
  then inr [Some "Oficio Nro. 14"; None; Some " de mayo"]
  else if isfile w path
       then inl "No /Root object! - Is this really a PDF?"
       else inl ("[Errno 2] No such file or directory: '" ++ path ++ "'").

Definition sample_system : system :=
  {| os_listdir := sample_listdir;
     os_rename := sample_rename;
     pdf_pages := sample_pdf_pages |}.

(** A folder with two reports, a file without a month in its name and a
    subfolder. *)
Definition sample_folder : world :=
  {| w_fs := {[ "/informes" := Dir;
                "/informes/Informe Enero.docx"
                  := File (Package doc_no_markers) true;
                "/informes/informe_mayo_2024.pdf"
                  := File (NotPackage (PackageNotFoundError
                                        "/informes/informe_mayo_2024.pdf"))
                          true;
                "/informes/notas.PDF"
                  := File (NotPackage (PackageNotFoundError "/informes/notas.PDF"))
                          true;
                "/informes/julio" := Dir;
                "/otros/enero.txt"
                  := File (NotPackage (PackageNotFoundError "/otros/enero.txt")) true ]};
     w_log := [] |}.

(** *** Notions for the tools on folders *)

Definition is_error (r : result) : Prop :=
  match r with
  | Error _ => True
  | Message _ => False
  end.





(** The names of [sample_folder], as [sample_system] lists them. *)
Definition sample_names : list string :=
  Eval vm_compute in
    match os_listdir sample_system sample_folder "/informes" with
    | inr names => names
    | inl _ => []
    end.


(** ** Facts on strings *)

Section StringFacts.

Lemma append_cons (c : ascii) (s t : string) :
  String c s ++ t = String c (s ++ t).
Proof. done. Qed.

Lemma append_empty_r (s : string) : s ++ EmptyString = s.
Proof. induction s as [|c s IH]; [done | by rewrite append_cons, IH]. Qed.

Lemma prefix_empty (s : string) : String.prefix EmptyString s = true.
Proof. by destruct s. Qed.

Lemma prefix_cons (a b : ascii) (m s : string) :
  String.prefix (String a m) (String b s)
  = if Ascii.eqb a b then String.prefix m s else false.
Proof.
  simpl. destruct (ascii_dec a b) as [->|Hne].
  - by rewrite Ascii.eqb_refl.
  - by apply Ascii.eqb_neq in Hne as ->.
Qed.

Lemma prefix_append (m t : string) : String.prefix m (m ++ t) = true.
Proof.
  induction m as [|c m IH]; [apply prefix_empty |].
  by rewrite append_cons, prefix_cons, Ascii.eqb_refl.
Qed.

Lemma prefix_split (m s : string) :
  String.prefix m s = true -> exists t, s = m ++ t.
Proof.
  revert s. induction m as [|c m IH]; intros s H.
  - by exists s.
  - destruct s as [|b s]; [done |].
    rewrite prefix_cons in H. destruct (Ascii.eqb c b) eqn:E; [| done].
    apply Ascii.eqb_eq in E as ->. destruct (IH _ H) as [t ->]. by exists t.
Qed.

(** Two prefixes of one string are comparable. *)
Lemma prefix_comparable (m w t : string) :
  String.prefix m (w ++ t) = true ->
  String.prefix m w = true \/ String.prefix w m = true.
Proof.
  revert w. induction m as [|c m IH]; intros w H.
  - left. apply prefix_empty.
  - destruct w as [|b w]; [right; apply prefix_empty |].
    rewrite append_cons, prefix_cons in H. rewrite !prefix_cons.
    rewrite (Ascii.eqb_sym b c).
    destruct (Ascii.eqb c b); [by apply IH | done].
Qed.

Lemma contains_prefix (m s : string) :
  String.prefix m s = true -> Str.contains m s = true.
Proof. intros H. destruct s; simpl in *; by rewrite H. Qed.

Lemma contains_cons (m : string) (c : ascii) (s : string) :
  Str.contains m (String c s)
  = String.prefix m (String c s) || Str.contains m s.
Proof. done. Qed.

Lemma contains_append_r (m a b : string) :
  Str.contains m b = true -> Str.contains m (a ++ b) = true.
Proof.
  intros H. induction a as [|c a IH]; [done |].
  rewrite append_cons, contains_cons, IH. apply orb_true_r.
Qed.

(** A text that is put between two others occurs in the whole. *)
Lemma contains_middle (a p b : string) : Str.contains p (a ++ p ++ b) = true.
Proof. apply contains_append_r, contains_prefix, prefix_append. Qed.

End StringFacts.

(** ** Facts on markers and replacement *)

Section MarkerFacts.

Lemma shaped_inv (m : string) :
  shaped m = true -> exists n, m = String open_brace n /\ has_open n = false.
Proof.
  destruct m as [|c n]; [done |]. simpl. intros [Hc Hn]%andb_prop.
  apply Ascii.eqb_eq in Hc as ->. exists n. split; [done |].
  by apply negb_true_iff.
Qed.

(** A marker is no prefix of a text that starts with another character. *)
Lemma prefix_shaped_other (m : string) (c : ascii) (s : string) :
  shaped m = true -> Ascii.eqb c open_brace = false ->
  String.prefix m (String c s) = false.
Proof.
  intros (n & -> & _)%shaped_inv Hc.
  by rewrite prefix_cons, Ascii.eqb_sym, Hc.
Qed.

Lemma prefix_shaped_empty (m : string) :
  shaped m = true -> String.prefix m EmptyString = false.
Proof. by intros (n & -> & _)%shaped_inv. Qed.

Lemma apart_not_prefix (m w t : string) :
  apart m w = true -> String.prefix m (w ++ t) = false.
Proof.
  intros [H1 H2]%andb_prop. apply negb_true_iff in H1, H2.
  apply not_true_is_false. intros [H|H]%prefix_comparable; congruence.
Qed.

Lemma contains_shaped_empty (m : string) :
  shaped m = true -> Str.contains m EmptyString = false.
Proof. by intros (n & -> & _)%shaped_inv. Qed.



Lemma replace_shaped (m v s : string) :
  shaped m = true -> Str.replace m v s = Str.replace_from m v 0 s.
Proof. by intros (n & -> & _)%shaped_inv. Qed.

Lemma replace_from_0 (m v : string) (c : ascii) (s : string) :
  Str.replace_from m v 0 (String c s)
  = if String.prefix m (String c s)
    then v ++ Str.replace_from m v (String.length m - 1) s
    else String c (Str.replace_from m v 0 s).
Proof. done. Qed.

Lemma replace_from_skip (m v w t : string) :
  Str.replace_from m v (String.length w) (w ++ t) = Str.replace_from m v 0 t.
Proof.
  induction w as [|c w IH]; [by destruct t |].
  by rewrite append_cons.
Qed.

Lemma replace_from_other (m v : string) (c : ascii) (s : string) :
  shaped m = true -> Ascii.eqb c open_brace = false ->
  Str.replace_from m v 0 (String c s) = String c (Str.replace_from m v 0 s).
Proof. intros Hm Hc. by rewrite replace_from_0, prefix_shaped_other. Qed.

Lemma replace_from_marker (m v t : string) :
  shaped m = true ->
  Str.replace_from m v 0 (m ++ t) = v ++ Str.replace_from m v 0 t.
Proof.
  intros Hm. pose proof (prefix_append m t) as Hp.
  destruct (shaped_inv _ Hm) as (n & -> & _).
  rewrite append_cons in *. rewrite replace_from_0, Hp.
  replace (String.length (String open_brace n) - 1) with (String.length n)
    by (cbn [String.length]; lia).
  by rewrite replace_from_skip.
Qed.

Lemma replace_from_plain (m v w t : string) :
  shaped m = true -> has_open w = false ->
  Str.replace_from m v 0 (w ++ t) = w ++ Str.replace_from m v 0 t.
Proof.
  intros Hm. induction w as [|c w IH]; [done |].
  intros Hw. cbn [has_open] in Hw. apply orb_false_elim in Hw as [Hc Hw].
  by rewrite !append_cons, replace_from_other, IH.
Qed.

(** The replacement leaves an occurrence of another marker as it is. *)
Lemma replace_from_word (m v w t : string) :
  shaped m = true -> shaped w = true -> String.prefix m (w ++ t) = false ->
  Str.replace_from m v 0 (w ++ t) = w ++ Str.replace_from m v 0 t.
Proof.
  intros Hm (n & -> & Hn)%shaped_inv Hp.
  rewrite !append_cons in *. rewrite replace_from_0, Hp.
  by rewrite replace_from_plain.
Qed.

Lemma opens_only_cons (ms : list string) (c : ascii) (s : string) :
  opens_only ms (String c s)
  = (negb (Ascii.eqb c open_brace)
     || existsb (fun m => String.prefix m (String c s)) ms)
    && opens_only ms s.
Proof. done. Qed.

Lemma opens_only_plain (ms : list string) (w t : string) :
  has_open w = false -> opens_only ms t = true -> opens_only ms (w ++ t) = true.
Proof.
  intros Hw Ht. induction w as [|c w IH]; [done |].
  cbn [has_open] in Hw. apply orb_false_elim in Hw as [Hc Hw].
  rewrite append_cons, opens_only_cons, Hc, IH by done. done.
Qed.

Lemma opens_only_word (ms : list string) (w t : string) :
  shaped w = true -> w ∈ ms -> opens_only ms t = true ->
  opens_only ms (w ++ t) = true.
Proof.
  intros Hw Hin Ht. pose proof (prefix_append w t) as Hp.
  destruct (shaped_inv _ Hw) as (n & -> & Hn).
  rewrite append_cons in *. rewrite opens_only_cons.
  rewrite opens_only_plain by done. rewrite andb_true_r.
  apply orb_true_intro. right. apply existsb_exists.
  exists (String open_brace n). split; [by apply list_elem_of_In | done].
Qed.

Lemma compatible_inv (m : string) (ms : list string) (m' : string) :
  compatible m ms = true -> m' ∈ ms ->
  shaped m' = true /\ (m = m' \/ apart m m' = true).
Proof.
  intros [_ H]%andb_prop Hin. rewrite forallb_forall in H.
  apply list_elem_of_In, H in Hin. apply andb_prop in Hin as [Hs Ho].
  split; [done |]. apply orb_prop in Ho as [He|Ha]; [left | by right].
  by apply String.eqb_eq.
Qed.

Lemma elem_of_without (m m' : string) (ms : list string) :
  m' ∈ ms -> m <> m' -> m' ∈ without m ms.
Proof.
  intros Hin Hne. apply list_elem_of_In, filter_In. split.
  - by apply list_elem_of_In.
  - apply negb_true_iff. by apply String.eqb_neq.
Qed.

(** Replacing a marker by a text without opening brace leaves the other
    markers where they were, and nothing else behind an opening brace. *)
Lemma opens_only_replace_from (m v : string) (ms : list string) (s : string) :
  compatible m ms = true -> has_open v = false ->
  forall k, opens_only ms s = true ->
            opens_only (without m ms) (Str.replace_from m v k s) = true.
Proof.
  intros Hc Hv. pose proof Hc as [Hm _]%andb_prop.
  induction s as [|c s IH]; intros k Hs; [done |].
  rewrite opens_only_cons in Hs. apply andb_prop in Hs as [Hhead Hs].
  destruct k as [|k]; [| by apply IH].
  rewrite replace_from_0.
  destruct (String.prefix m (String c s)) eqn:Hp.
  - apply opens_only_plain; [done | by apply IH].
  - destruct (Ascii.eqb c open_brace) eqn:Ec.
    + cbn [negb orb] in Hhead.
      apply existsb_exists in Hhead as (m' & Hin & Hp').
      apply list_elem_of_In in Hin.
      destruct (compatible_inv _ _ _ Hc Hin) as [Hs' [->|Ha]]; [congruence |].
      destruct (prefix_split _ _ Hp') as [t Ht].
      assert (Str.replace_from m v 0 (String c s)
              = m' ++ Str.replace_from m v 0 t) as Heq.
      { rewrite Ht. apply replace_from_word; [done.. |]. by rewrite <- Ht. }
      rewrite replace_from_0, Hp in Heq.
      rewrite opens_only_cons, IH, andb_true_r by done.
      apply orb_true_intro. right. apply existsb_exists. exists m'. split.
      * apply list_elem_of_In, elem_of_without; [done |]. intros ->.
        by rewrite Ht, prefix_append in Hp.
      * rewrite Heq. apply prefix_append.
    + rewrite opens_only_cons, Ec. cbn [negb orb andb]. by apply IH.
Qed.

(** A marker that is apart from all of [ms] does not occur in a text
    whose opening braces open members of [ms] only. *)
Lemma opens_only_absent (m : string) (ms : list string) (s : string) :
  shaped m = true -> forallb (apart m) ms = true ->
  opens_only ms s = true -> Str.contains m s = false.
Proof.
  intros Hm Ha. induction s as [|c s IH]; intros Hs.
  - by apply contains_shaped_empty.
  - rewrite opens_only_cons in Hs. apply andb_prop in Hs as [Hhead Hs].
    rewrite contains_cons, IH, orb_false_r by done.
    apply not_true_is_false. intros Hp.
    destruct (Ascii.eqb c open_brace) eqn:Ec.
    + cbn [negb orb] in Hhead.
      apply existsb_exists in Hhead as (m' & Hin & Hp').
      rewrite forallb_forall in Ha. specialize (Ha _ Hin).
      destruct (prefix_split _ _ Hp') as [t Ht].
      rewrite Ht in Hp. by rewrite (apart_not_prefix _ _ t Ha) in Hp.
    + by rewrite prefix_shaped_other in Hp.
Qed.

Lemma opens_only_without (m : string) (ms : list string) (s : string) :
  opens_only ms s = true -> Str.contains m s = false ->
  opens_only (without m ms) s = true.
Proof.
  induction s as [|c s IH]; [done |].
  rewrite contains_cons, !opens_only_cons.
  intros [Hhead Hs]%andb_prop [Hp Hc]%orb_false_elim.
  rewrite IH, andb_true_r by done.
  destruct (Ascii.eqb c open_brace); [| done].
  cbn [negb orb] in *. apply existsb_exists in Hhead as (m' & Hin & Hp').
  apply existsb_exists. exists m'. split; [| done].
  apply list_elem_of_In, elem_of_without; [by apply list_elem_of_In |].
  intros ->. congruence.
Qed.

Lemma opens_only_substitute (m v : string) (ms : list string) (s : string) :
  compatible m ms = true -> has_open v = false ->
  opens_only ms s = true ->
  opens_only (without m ms) (substitute m v s) = true.
Proof.
  intros Hc Hv Hs. unfold substitute.
  destruct (Str.contains m s) eqn:E.
  - apply andb_prop in Hc as Hc'. destruct Hc' as [Hm _].
    rewrite replace_shaped by done. by apply opens_only_replace_from.
  - by apply opens_only_without.
Qed.

Lemma drop_append (w t : string) : Str.drop (String.length w) (w ++ t) = t.
Proof. induction w as [|c w IH]; [by destruct t | done]. Qed.



(** A text made of pieces without opening brace, with the marker between
    them: every occurrence of the marker gives way to the value. *)
Lemma replace_join (m v : string) (pieces : list string) :
  shaped m = true ->
  Forall (fun s => has_open s = false) pieces ->
  Str.replace m v (Str.join m pieces) = Str.join v pieces.
Proof.
  intros Hm Hpieces. rewrite replace_shaped by done.
  induction Hpieces as [|s l Hs Hl IH]; [done |].
  destruct l as [|s' l].
  - cbn [Str.join]. rewrite <- (append_empty_r s) at 1.
    rewrite replace_from_plain by done. apply append_empty_r.
  - change (Str.join m (s :: s' :: l)) with (s ++ m ++ Str.join m (s' :: l))%string.
    change (Str.join v (s :: s' :: l)) with (s ++ v ++ Str.join v (s' :: l))%string.
    by rewrite replace_from_plain, replace_from_marker, IH.
Qed.

End MarkerFacts.

(** ** Facts on the children of the body *)

Open Scope list_scope.

Section BodyFacts.

Lemma fresh_above (body : list block) (b : block) :
  b ∈ body -> b_id b < fresh body.
Proof.
  intros Hin. unfold fresh.
  assert (b_id b ∈ map b_id body) as H by (by apply list_elem_of_fmap_2).
  apply max_list_elem_of_le in H. lia.
Qed.

Lemma fresh_not_in (body : list block) : fresh body ∉ ids body.
Proof.
  intros (b & Heq & Hin)%list_elem_of_fmap.
  apply fresh_above in Hin. lia.
Qed.

Lemma index_of_middle (id : nat) (done post : list block) (b : block) :
  id ∉ ids done -> b_id b = id ->
  index_of id (done ++ b :: post) = Returned (length done).
Proof.
  intros Hnot Hb. induction done as [|d done IH]; simpl.
  - by rewrite Hb, Nat.eqb_refl.
  - unfold ids in Hnot. rewrite fmap_cons, not_elem_of_cons in Hnot.
    destruct Hnot as [Hne Hnot].
    destruct (Nat.eqb_spec (b_id d) id) as [Heq|_]; [congruence |].
    by rewrite IH.
Qed.

Lemma remove_child_middle (id : nat) (done post : list block) (b : block) :
  id ∉ ids done -> b_id b = id ->
  remove_child id (done ++ b :: post) = done ++ post.
Proof.
  intros Hnot Hb. induction done as [|d done IH]; simpl.
  - by rewrite Hb, Nat.eqb_refl.
  - unfold ids in Hnot. rewrite fmap_cons, not_elem_of_cons in Hnot.
    destruct Hnot as [Hne Hnot].
    destruct (Nat.eqb_spec (b_id d) id) as [Heq|_]; [congruence |].
    by rewrite IH.
Qed.

Lemma remove_child_absent (id : nat) (body : list block) :
  id ∉ ids body -> remove_child id body = body.
Proof.
  induction body as [|d body IH]; [done |]. intros Hnot.
  unfold ids in Hnot. rewrite fmap_cons, not_elem_of_cons in Hnot.
  destruct Hnot as [Hne Hnot]. simpl.
  destruct (Nat.eqb_spec (b_id d) id) as [Heq|_]; [congruence |].
  by rewrite IH.
Qed.

Lemma insert_before_middle (id : nat) (x : block) (done post : list block)
    (b : block) :
  id ∉ ids done -> b_id b = id ->
  insert_before id x (done ++ b :: post) = done ++ x :: b :: post.
Proof.
  intros Hnot Hb. induction done as [|d done IH]; simpl.
  - by rewrite Hb, Nat.eqb_refl.
  - unfold ids in Hnot. rewrite fmap_cons, not_elem_of_cons in Hnot.
    destruct Hnot as [Hne Hnot].
    destruct (Nat.eqb_spec (b_id d) id) as [Heq|_]; [congruence |].
    by rewrite IH.
Qed.

(** A new element inserted at the place of the first of the children
    [post] goes between [done] and [post]. *)
Lemma insert_child_new (x : block) (done post : list block) :
  NoDup (ids (done ++ post)) -> b_id x ∉ ids (done ++ post) ->
  insert_child (length done) x (done ++ post) = done ++ x :: post.
Proof.
  intros Hnd Hx. unfold insert_child.
  rewrite (remove_child_absent _ _ Hx).
  destruct post as [|c post].
  - rewrite app_nil_r, lookup_ge_None_2 by done. done.
  - rewrite list_lookup_middle by done.
    destruct (Nat.eqb_spec (b_id c) (b_id x)) as [Heq|_].
    + exfalso. apply Hx. rewrite <- Heq. unfold ids.
      rewrite fmap_app, fmap_cons. set_solver.
    + apply insert_before_middle; [| done].
      unfold ids in Hnd. rewrite fmap_app, fmap_cons in Hnd.
      apply NoDup_app in Hnd as (_ & Hdis & _). intros Hin.
      apply (Hdis _ Hin). apply list_elem_of_here.
Qed.

(** An element that is the last child, moved to the place of the first of
    the children [post], goes between [done] and [post]. *)
Lemma insert_child_last (x : block) (done post : list block) :
  NoDup (ids (done ++ post)) -> b_id x ∉ ids (done ++ post) ->
  insert_child (length done) x (done ++ post ++ [x]) = done ++ x :: post.
Proof.
  intros Hnd Hx. unfold insert_child.
  destruct post as [|c post].
  - rewrite app_nil_l, list_lookup_middle by done. by rewrite Nat.eqb_refl.
  - rewrite <- app_comm_cons, list_lookup_middle by done.
    destruct (Nat.eqb_spec (b_id c) (b_id x)) as [Heq|_].
    + exfalso. apply Hx. rewrite <- Heq. unfold ids.
      rewrite fmap_app, fmap_cons. set_solver.
    + replace (done ++ c :: post ++ [x]) with ((done ++ c :: post) ++ x :: [])
        by (by rewrite <- app_assoc).
      rewrite remove_child_middle by done. rewrite app_nil_r.
      apply insert_before_middle; [| done].
      unfold ids in Hnd. rewrite fmap_app, fmap_cons in Hnd.
      apply NoDup_app in Hnd as (_ & Hdis & _). intros Hin.
      apply (Hdis _ Hin). apply list_elem_of_here.
Qed.

Lemma NoDup_ids_insert (x : block) (done post : list block) :
  NoDup (ids (done ++ post)) -> b_id x ∉ ids (done ++ post) ->
  NoDup (ids (done ++ x :: post)).
Proof.
  intros Hnd Hx. unfold ids in *.
  rewrite fmap_app, fmap_cons. rewrite fmap_app in Hnd, Hx.
  apply NoDup_app in Hnd as (H1 & H2 & H3).
  rewrite not_elem_of_app in Hx. destruct Hx as [Hx1 Hx2].
  apply NoDup_app. split_and!; [done | | by apply NoDup_cons].
  intros y Hy [->|Hy']%elem_of_cons; [done | by apply (H2 y)].
Qed.

Lemma NoDup_ids_remove (b : block) (done post : list block) :
  NoDup (ids (done ++ b :: post)) ->
  NoDup (ids (done ++ post)) /\ b_id b ∉ ids done.
Proof.
  unfold ids. rewrite !fmap_app, fmap_cons.
  intros (H1 & H2 & H3)%NoDup_app. apply NoDup_cons in H3 as [H3 H4].
  split.
  - apply NoDup_app. split_and!; [done | | done].
    intros y Hy Hy'. apply (H2 y Hy). by apply list_elem_of_further.
  - intros Hin. apply (H2 _ Hin). apply list_elem_of_here.
Qed.

(** The three calls that put an anchor and a table where a paragraph
    was. *)
Lemma swap_paragraph (b : block) (t : table) (done post : list block) :
  NoDup (ids (done ++ b :: post)) ->
  let i1 := fresh (done ++ post) in
  let i2 := fresh (done ++ anchor_block i1 :: post) in
  place_table
    (insert_title_table (remove_child (b_id b) (done ++ b :: post)) (length done))
    (length done) t
  = done ++ anchor_block i1 :: table_block i2 t :: post.
Proof.
  intros Hnd i1 i2. apply NoDup_ids_remove in Hnd as [Hnd Hb].
  rewrite remove_child_middle by done.
  unfold insert_title_table. fold i1.
  rewrite insert_child_new; [| done | apply fresh_not_in].
  unfold place_table. fold i2. cbv zeta.
  assert (NoDup (ids (done ++ anchor_block i1 :: post))) as Hnd'.
  { apply NoDup_ids_insert; [done | apply fresh_not_in]. }
  assert (i2 ∉ ids (done ++ anchor_block i1 :: post)) as Hi2
    by apply fresh_not_in.
  clearbody i1 i2.
  replace (done ++ anchor_block i1 :: post)
    with ((done ++ [anchor_block i1]) ++ post) in * by (by rewrite <- app_assoc).
  replace (length done + 1) with (length (done ++ [anchor_block i1]))
    by (rewrite length_app; simpl; lia).
  rewrite <- (app_assoc _ post).
  rewrite insert_child_last by done.
  by rewrite <- app_assoc.
Qed.

End BodyFacts.

(** ** The first loop *)

Section TablePass.

Variable a : args.

Lemma title_table_set_body (body : list block) (doc : document) :
  title_table a (set_body body doc) = title_table a doc.
Proof. done. Qed.

Lemma description_table_set_body (body : list block) (doc : document) :
  description_table a (set_body body doc) = description_table a doc.
Proof. done. Qed.

Lemma step_unmarked (doc : document) (r : bool) (id : nat) (p : paragraph) :
  has_table_marker p = false ->
  table_marker_step a (doc, r) (id, p) = Returned (doc, r).
Proof. unfold has_table_marker, table_marker_step. by intros ->. Qed.

Lemma step_title (doc : document) (r : bool) (id : nat) (p : paragraph)
    (done post : list block) :
  d_body doc = done ++ {| b_id := id; b_content := Para p |} :: post ->
  NoDup (ids (d_body doc)) ->
  Str.contains title_marker (para_text p) = true ->
  table_marker_step a (doc, r) (id, p)
  = t ← title_table a doc; Returned (set_body (swapped done post t) doc, true).
Proof.
  intros Hbody Hnd Ht. unfold table_marker_step. rewrite Ht, orb_true_l.
  rewrite Hbody in *. pose proof (NoDup_ids_remove _ _ _ Hnd) as [_ Hid].
  rewrite index_of_middle by done. cbn [mbind py_bind].
  destruct (title_table a doc) as [t|e]; [| done]. cbn [mbind py_bind].
  by rewrite (swap_paragraph {| b_id := id; b_content := Para p |}).
Qed.

Lemma step_description (doc : document) (r : bool) (id : nat) (p : paragraph)
    (done post : list block) :
  d_body doc = done ++ {| b_id := id; b_content := Para p |} :: post ->
  NoDup (ids (d_body doc)) ->
  Str.contains title_marker (para_text p) = false ->
  Str.contains description_marker (para_text p) = true ->
  table_marker_step a (doc, r) (id, p)
  = t ← description_table a doc;
    Returned (set_body (swapped done post t) doc, true).
Proof.
  intros Hbody Hnd Ht Hd. unfold table_marker_step.
  rewrite Ht, Hd, orb_true_r.
  rewrite Hbody in *. pose proof (NoDup_ids_remove _ _ _ Hnd) as [_ Hid].
  rewrite index_of_middle by done. cbn [mbind py_bind].
  destruct (description_table a doc) as [t|e]; [| done]. cbn [mbind py_bind].
  by rewrite (swap_paragraph {| b_id := id; b_content := Para p |}).
Qed.

Lemma NoDup_swapped (b : block) (t : table) (done post : list block) :
  NoDup (ids (done ++ b :: post)) -> NoDup (ids (swapped done post t)).
Proof.
  intros [Hnd _]%NoDup_ids_remove. unfold swapped.
  set (i1 := fresh (done ++ post)).
  assert (NoDup (ids (done ++ anchor_block i1 :: post))) as Hnd'.
  { apply NoDup_ids_insert; [done | apply fresh_not_in]. }
  set (i2 := fresh (done ++ anchor_block i1 :: post)).
  replace (done ++ anchor_block i1 :: table_block i2 t :: post)
    with ((done ++ [anchor_block i1]) ++ table_block i2 t :: post)
    by (by rewrite <- app_assoc).
  apply NoDup_ids_insert; rewrite <- app_assoc; [done | apply fresh_not_in].
Qed.

Lemma paragraphs_cons (b : block) (post : list block) :
  paragraphs (b :: post)
  = match b_content b with
    | Para p => (b_id b, p) :: paragraphs post
    | _ => paragraphs post
    end.
Proof. by destruct b as [id [p|t|tag]]. Qed.

(** The loop, begun with the children [done] dealt with and the
    children [post] to come. *)
Lemma table_loop_expands (post : list block) :
  forall (done : list block) (doc : document) (r : bool) (doc' : document)
         (r' : bool),
    d_body doc = done ++ post ->
    NoDup (ids (d_body doc)) ->
    for_each (paragraphs post) (table_marker_step a) (doc, r)
    = Returned (doc', r') ->
    exists mid,
      d_body doc' = done ++ mid
      /\ expands (title_table a doc) (description_table a doc) post mid
      /\ d_styles doc' = d_styles doc
      /\ d_block_width doc' = d_block_width doc
      /\ r' = r || existsb (fun h => has_table_marker h.2) (paragraphs post).
Proof.
  induction post as [|b post IH]; intros done doc r doc' r' Hbody Hnd Hrun.
  - simpl in Hrun. injection Hrun as <- <-. exists [].
    rewrite orb_false_r. split_and!; [done | constructor | done..].
  - assert (d_body doc = (done ++ [b]) ++ post) as Hbody'
      by (by rewrite <- app_assoc).
    assert ((forall p, b_content b = Para p -> has_table_marker p = false) ->
            for_each (paragraphs post) (table_marker_step a) (doc, r)
            = Returned (doc', r') ->
            exists mid,
              d_body doc' = done ++ mid
              /\ expands (title_table a doc) (description_table a doc)
                   (b :: post) mid
              /\ d_styles doc' = d_styles doc
              /\ d_block_width doc' = d_block_width doc
              /\ r' = r || existsb (fun h => has_table_marker h.2)
                             (paragraphs (b :: post))) as Hkeep.
    { intros Hclean Hrun'.
      destruct (IH _ _ _ _ _ Hbody' Hnd Hrun') as (mid & H1 & H2 & H3 & H4 & H5).
      exists (b :: mid). rewrite H1, <- app_assoc.
      split_and!; [done | by constructor | done.. |].
      rewrite paragraphs_cons. destruct (b_content b) as [p| |]; [| done..].
      cbn [existsb snd]. by rewrite (Hclean p). }
    rewrite paragraphs_cons in Hrun.
    destruct b as [id [p|t|tag]]; cbn [b_content b_id] in Hrun;
      [| by apply Hkeep..].
    cbn [for_each] in Hrun.
    destruct (has_table_marker p) eqn:Hm.
    2: { rewrite step_unmarked in Hrun by done. apply Hkeep; [| done].
         intros ? [= <-]. done. }
    assert (forall t,
              NoDup (ids (d_body (set_body (swapped done post t) doc)))) as Hnd'.
    { intros t. cbn [d_body set_body]. eapply NoDup_swapped.
      by rewrite <- Hbody. }
    assert (forall t, d_body (set_body (swapped done post t) doc)
                      = (done ++ [anchor_block (fresh (done ++ post));
                                  table_block
                                    (fresh (done ++ anchor_block (fresh (done ++ post)) :: post)) t])
                        ++ post) as Hbody''.
    { intros t. cbn [d_body set_body]. unfold swapped. by rewrite <- app_assoc. }
    assert (r || existsb (fun h => has_table_marker h.2)
                   (paragraphs ({| b_id := id; b_content := Para p |} :: post))
            = true) as Hflag.
    { rewrite paragraphs_cons. cbn [b_content existsb snd].
      rewrite Hm. apply orb_true_r. }
    rewrite Hflag.
    destruct (Str.contains title_marker (para_text p)) eqn:Ht.
    + rewrite (step_title _ _ _ _ done post) in Hrun by done.
      destruct (title_table a doc) as [t|e] eqn:Htt; [| done].
      cbn [mbind py_bind] in Hrun.
      destruct (IH _ _ _ _ _ (Hbody'' t) (Hnd' t) Hrun)
        as (mid & H1 & H2 & H3 & H4 & H5).
      eexists (_ :: _ :: mid). rewrite H1, <- app_assoc.
      split_and!; [done | | done..].
      apply expands_title; [done | done |]. by rewrite <- Htt.
    + unfold has_table_marker in Hm. rewrite Ht, orb_false_l in Hm.
      rewrite (step_description _ _ _ _ done post) in Hrun by done.
      destruct (description_table a doc) as [t|e] eqn:Htt; [| done].
      cbn [mbind py_bind] in Hrun.
      destruct (IH _ _ _ _ _ (Hbody'' t) (Hnd' t) Hrun)
        as (mid & H1 & H2 & H3 & H4 & H5).
      eexists (_ :: _ :: mid). rewrite H1, <- app_assoc.
      split_and!; [done | | done..].
      apply expands_description; [done | done | done |]. by rewrite <- Htt.
Qed.


End TablePass.

(** ** The second and third loops *)

Section TextPasses.

Variable a : args.

Lemma para_text_set (t : string) (p : paragraph) :
  para_text (set_para_text t p) = t.
Proof. unfold para_text. simpl. apply append_empty_r. Qed.

Lemma cell_text_set (t : string) (c : cell) : cell_text (set_cell_text t c) = t.
Proof. unfold cell_text, cell_paragraphs. simpl. apply append_empty_r. Qed.

Lemma cell_text_align (x : alignment) (c : cell) :
  cell_text (align_cell x c) = cell_text c.
Proof.
  unfold cell_text, cell_paragraphs. f_equal. destruct c as [w shd items].
  simpl. induction items as [|[p|n] items IH]; [done | | done].
  cbn [map omap list_omap]. cbn [map omap list_omap] in IH. by rewrite IH.
Qed.

Lemma para_text_write (j : bool) (m v : string) (p : paragraph) :
  para_text (write_paragraph j m v p) = substitute m v (para_text p).
Proof.
  unfold write_paragraph, substitute.
  destruct (Str.contains m (para_text p)); [| done].
  destruct j; exact (para_text_set _ p).
Qed.

Lemma cell_text_write (j : bool) (m v : string) (c : cell) :
  cell_text (write_cell j m v c) = substitute m v (cell_text c).
Proof.
  unfold write_cell, substitute.
  destruct (Str.contains m (cell_text c)); [| done].
  destruct j; [rewrite cell_text_align |]; exact (cell_text_set _ c).
Qed.

Lemma replace_in_paragraph_unfold (p : paragraph) (r : bool) :
  replace_in_paragraph a p r
  = if any_in text_markers (para_text p)
    then (write_paragraph true "{recommendations}" (recommendations a)
            (write_paragraph true "{conclusions}" (conclusiones a)
               (write_paragraph false "{month}" (month a)
                  (write_paragraph true "{activities}" (activities a) p))),
          true)
    else (p, r).
Proof. done. Qed.

Lemma replace_in_cell_unfold (c : cell) (r : bool) :
  replace_in_cell a c r
  = if any_in text_markers (cell_text c)
    then (write_cell true "{recommendations}" (recommendations a)
            (write_cell true "{conclusions}" (conclusiones a)
               (write_cell false "{month}" (month a)
                  (write_cell true "{activities}" (activities a) c))),
          true)
    else (c, r).
Proof. done. Qed.

Lemma subst_text_clean (t : string) :
  any_in text_markers t = false -> subst_text a t = t.
Proof.
  unfold any_in, text_markers. cbn [existsb]. rewrite orb_false_r.
  intros [H1 [H2 [H3 H4]%orb_false_elim]%orb_false_elim]%orb_false_elim.
  unfold subst_text, substitute. by rewrite H1, H2, H3, H4.
Qed.

Lemma replace_in_paragraph_text (p : paragraph) (r : bool) :
  para_text (replace_in_paragraph a p r).1 = subst_text a (para_text p).
Proof.
  rewrite replace_in_paragraph_unfold.
  destruct (any_in text_markers (para_text p)) eqn:E.
  - cbn [fst]. by rewrite !para_text_write.
  - cbn [fst]. by rewrite subst_text_clean.
Qed.

Lemma replace_in_cell_text (c : cell) (r : bool) :
  cell_text (replace_in_cell a c r).1 = subst_text a (cell_text c).
Proof.
  rewrite replace_in_cell_unfold.
  destruct (any_in text_markers (cell_text c)) eqn:E.
  - cbn [fst]. by rewrite !cell_text_write.
  - cbn [fst]. by rewrite subst_text_clean.
Qed.

Lemma replace_in_paragraph_flag (p : paragraph) (r : bool) :
  replace_in_paragraph a p r
  = ((replace_in_paragraph a p false).1, r || any_in text_markers (para_text p)).
Proof.
  rewrite !replace_in_paragraph_unfold.
  destruct (any_in text_markers (para_text p)); cbn [fst];
    by rewrite ?orb_true_r, ?orb_false_r.
Qed.

Lemma replace_in_cell_flag (c : cell) (r : bool) :
  replace_in_cell a c r
  = ((replace_in_cell a c false).1, r || any_in text_markers (cell_text c)).
Proof.
  rewrite !replace_in_cell_unfold.
  destruct (any_in text_markers (cell_text c)); cbn [fst];
    by rewrite ?orb_true_r, ?orb_false_r.
Qed.

Lemma paragraph_pass_map (body : list block) (r : bool) :
  paragraph_pass a body r
  = (map (para_block a) body,
     r || existsb (fun h => any_in text_markers (para_text h.2)) (paragraphs body)).
Proof.
  revert r. induction body as [|b body IH]; intros r.
  - by rewrite orb_false_r.
  - cbn [paragraph_pass map]. rewrite paragraphs_cons. unfold para_block at 1.
    destruct (b_content b) as [p|t|tag].
    + rewrite replace_in_paragraph_flag, IH. cbn [existsb snd].
      by rewrite orb_assoc.
    + by rewrite IH.
    + by rewrite IH.
Qed.

Lemma row_pass_map (row : list cell) (r : bool) :
  row_pass a row r
  = (map (fun c => (replace_in_cell a c false).1) row,
     r || existsb (fun c => any_in text_markers (cell_text c)) row).
Proof.
  revert r. induction row as [|c row IH]; intros r.
  - by rewrite orb_false_r.
  - cbn [row_pass map existsb]. rewrite replace_in_cell_flag, IH.
    by rewrite orb_assoc.
Qed.

Lemma rows_pass_map (rows : list (list cell)) (r : bool) :
  rows_pass a rows r
  = (map (map (fun c => (replace_in_cell a c false).1)) rows,
     r || existsb (fun c => any_in text_markers (cell_text c)) (concat rows)).
Proof.
  revert r. induction rows as [|row rows IH]; intros r.
  - by rewrite orb_false_r.
  - cbn [rows_pass map concat]. rewrite row_pass_map, IH.
    by rewrite existsb_app, orb_assoc.
Qed.

Lemma tables_cons (b : block) (body : list block) :
  tables (b :: body)
  = match b_content b with
    | Tbl t => t :: tables body
    | _ => tables body
    end.
Proof. by destruct b as [id [p|t|tag]]. Qed.

Lemma tables_pass_map (body : list block) (r : bool) :
  tables_pass a body r
  = (map (cells_block a) body,
     r || existsb (fun c => any_in text_markers (cell_text c))
            (concat (concat (map t_rows (tables body))))).
Proof.
  revert r. induction body as [|b body IH]; intros r.
  - by rewrite orb_false_r.
  - cbn [tables_pass map]. rewrite tables_cons. unfold cells_block at 1.
    destruct (b_content b) as [p|t|tag].
    + by rewrite IH.
    + rewrite rows_pass_map, IH. cbn [map concat].
      by rewrite concat_app, existsb_app, orb_assoc.
    + by rewrite IH.
Qed.

Lemma text_block_split (b : block) :
  cells_block a (para_block a b) = text_block a b.
Proof. by destruct b as [id [p|t|tag]]. Qed.

Lemma tables_para_block (body : list block) :
  tables (map (para_block a) body) = tables body.
Proof.
  induction body as [|b body IH]; [done |].
  cbn [map]. rewrite !tables_cons, IH. by destruct b as [id [p|t|tag]].
Qed.

End TextPasses.

(** ** The three loops together *)

Section Fill.

Variable a : args.

(** What [fill] returns, when it returns. *)
Lemma fill_spec (doc doc' : document) (r : bool) :
  NoDup (ids (d_body doc)) ->
  fill a doc = Returned (doc', r) ->
  exists mid,
    expands (title_table a doc) (description_table a doc) (d_body doc) mid
    /\ d_body doc' = map (text_block a) mid
    /\ d_styles doc' = d_styles doc
    /\ d_block_width doc' = d_block_width doc
    /\ r = any_marker_found (d_body doc) mid.
Proof.
  intros Hnd. unfold fill, table_pass.
  destruct (for_each _ _ _) as [[doc1 r1]|e] eqn:Hloop; [| done].
  cbn [mbind py_bind].
  destruct (table_loop_expands a (d_body doc) [] doc false doc1 r1)
    as (mid & H1 & H2 & H3 & H4 & H5); [done.. |].
  rewrite app_nil_l in H1.
  rewrite paragraph_pass_map, tables_pass_map.
  intros [= <- <-]. exists mid. cbn [d_body d_styles d_block_width set_body].
  split_and!; [done | | done | done |].
  - rewrite H1, map_map. apply map_ext. apply text_block_split.
  - rewrite tables_para_block, H5, H1. by rewrite orb_false_l.
Qed.

Lemma any_in_all_markers (t : string) :
  any_in all_markers t = false ->
  any_in text_markers t = false
  /\ Str.contains title_marker t = false
  /\ Str.contains description_marker t = false.
Proof.
  unfold any_in, all_markers. rewrite existsb_app. cbn [existsb].
  rewrite orb_false_r.
  by intros [H1 [H2 H3]%orb_false_elim]%orb_false_elim.
Qed.

Lemma replace_in_paragraph_clean (p : paragraph) (r : bool) :
  any_in text_markers (para_text p) = false ->
  replace_in_paragraph a p r = (p, r).
Proof. intros H. by rewrite replace_in_paragraph_unfold, H. Qed.

Lemma replace_in_cell_clean (c : cell) (r : bool) :
  any_in text_markers (cell_text c) = false ->
  replace_in_cell a c r = (c, r).
Proof. intros H. by rewrite replace_in_cell_unfold, H. Qed.

Lemma table_loop_clean (body : list block) (st : document * bool) :
  existsb (fun h => has_table_marker h.2) (paragraphs body) = false ->
  for_each (paragraphs body) (table_marker_step a) st = Returned st.
Proof.
  destruct st as [doc r].
  induction (paragraphs body) as [|[id p] l IH]; [done |].
  cbn [existsb snd]. intros [H1 H2]%orb_false_elim.
  cbn [for_each]. rewrite step_unmarked by done. cbn [mbind py_bind]. auto.
Qed.

Lemma para_block_clean (body : list block) :
  existsb (fun h => any_in text_markers (para_text h.2)) (paragraphs body)
  = false ->
  map (para_block a) body = body.
Proof.
  induction body as [|b body IH]; [done |].
  rewrite paragraphs_cons. cbn [map]. unfold para_block at 1.
  destruct b as [id [p|t|tag]]; cbn [b_content b_id]; [| by intros ->%IH..].
  cbn [existsb snd]. intros [H1 H2]%orb_false_elim.
  by rewrite replace_in_paragraph_clean, IH.
Qed.

Lemma cells_clean (row : list cell) :
  existsb (fun c => any_in text_markers (cell_text c)) row = false ->
  map (fun c => (replace_in_cell a c false).1) row = row.
Proof.
  induction row as [|c row IH]; [done |].
  cbn [existsb map]. intros [H1 H2]%orb_false_elim.
  by rewrite replace_in_cell_clean, IH.
Qed.

Lemma rows_clean (rows : list (list cell)) :
  existsb (fun c => any_in text_markers (cell_text c)) (concat rows) = false ->
  map (map (fun c => (replace_in_cell a c false).1)) rows = rows.
Proof.
  induction rows as [|row rows IH]; [done |].
  cbn [concat map]. rewrite existsb_app. intros [H1 H2]%orb_false_elim.
  by rewrite cells_clean, IH.
Qed.

Lemma set_rows_same (t : table) : set_rows (t_rows t) t = t.
Proof. by destruct t. Qed.

Lemma cells_block_clean (body : list block) :
  existsb (fun c => any_in text_markers (cell_text c))
    (concat (concat (map t_rows (tables body)))) = false ->
  map (cells_block a) body = body.
Proof.
  induction body as [|b body IH]; [done |].
  rewrite tables_cons. cbn [map]. unfold cells_block at 1.
  destruct b as [id [p|t|tag]]; cbn [b_content b_id]; [by intros ->%IH | |
    by intros ->%IH].
  cbn [map concat]. rewrite concat_app, existsb_app.
  intros [H1 H2]%orb_false_elim.
  by rewrite rows_clean, set_rows_same, IH.
Qed.

(** A document without markers goes through the three loops unchanged,
    with the flag down. *)
Lemma fill_clean (doc : document) :
  no_marker_left doc = true -> fill a doc = Returned (doc, false).
Proof.
  unfold no_marker_left. rewrite forallb_app.
  intros [Hp Hc]%andb_prop.
  assert (existsb (fun h => has_table_marker h.2) (paragraphs (d_body doc))
          = false
          /\ existsb (fun h => any_in text_markers (para_text h.2))
               (paragraphs (d_body doc)) = false) as [Hp1 Hp2].
  { unfold paragraph_texts in Hp. rewrite forallb_forall in Hp.
    split; apply not_true_is_false; intros (h & Hin & Hh)%existsb_exists;
      specialize (Hp (para_text h.2) (in_map _ _ _ Hin));
      apply negb_true_iff, any_in_all_markers in Hp as (H1 & H2 & H3).
    - unfold has_table_marker in Hh. by rewrite H2, H3 in Hh.
    - congruence. }
  assert (existsb (fun c => any_in text_markers (cell_text c))
            (concat (concat (map t_rows (tables (d_body doc))))) = false) as Hc1.
  { unfold cell_texts in Hc. rewrite forallb_forall in Hc.
    apply not_true_is_false. intros (c & Hin & Hh)%existsb_exists.
    specialize (Hc (cell_text c) (in_map _ _ _ Hin)).
    apply negb_true_iff, any_in_all_markers in Hc as (H1 & H2 & H3).
    congruence. }
  unfold fill, table_pass. rewrite table_loop_clean by done.
  cbn [mbind py_bind].
  rewrite paragraph_pass_map, para_block_clean by done.
  rewrite tables_pass_map, cells_block_clean by done.
  rewrite Hp2, Hc1. by destruct doc.
Qed.

End Fill.

(** ** The tool: results and files *)

Section Tool.

(** C7. The tool returns on every input: whatever is raised inside the
    [try] block (opening the document, building, saving) comes back as an
    error result that carries [str(e)]; what the block returns is
    returned as it is. *)
Theorem exceptions_become_error_results (a : args) (w : world) :
  (exists r w', generate_monthly_report a w = (Returned r, w'))
  /\ match report_body a w with
     | (Raised e, w') =>
         generate_monthly_report a w = (Returned (Error (str_exn e)), w')
     | (Returned r, w') => generate_monthly_report a w = (Returned r, w')
     end.
Proof.
  unfold generate_monthly_report.
  destruct (report_body a w) as [[r|e] w']; eauto.
Qed.

(** The three places where the block raises: the file is no document,
    a row lacks a key, the file cannot be written. *)
Example open_fails :
  generate_monthly_report (sample_args "/informes/mayo.docx")
    (world_not_a_document "/informes/mayo.docx")
  = (Returned (Error "Package not found at '/informes/mayo.docx'"),
     {| w_fs := w_fs (world_not_a_document "/informes/mayo.docx");
        w_log := [Opened "/informes/mayo.docx"] |}).
Proof. vm_compute. reflexivity. Qed.

Example build_fails :
  generate_monthly_report (args_row_without_mes "/informes/mayo.docx")
    (sample_world "/informes/mayo.docx" doc_title_marker)
  = (Returned (Error "'mes'"),
     {| w_fs := w_fs (sample_world "/informes/mayo.docx" doc_title_marker);
        w_log := [Opened "/informes/mayo.docx"] |}).
Proof. vm_compute. reflexivity. Qed.

Example save_fails :
  generate_monthly_report (sample_args "/informes/mayo.docx")
    (world_read_only "/informes/mayo.docx" doc_title_marker)
  = (Returned (Error "[Errno 13] Permission denied: '/informes/mayo.docx'"),
     {| w_fs := w_fs (world_read_only "/informes/mayo.docx" doc_title_marker);
        w_log := [Opened "/informes/mayo.docx"; Saved "/informes/mayo.docx"] |}).
Proof. vm_compute. reflexivity. Qed.

(** C8. For a path that names no existing file the tool returns an error
    result whose message contains the path, and leaves the files (and the
    log of opened and saved documents) as they were. *)
Theorem missing_file_is_reported (a : args) (w : world) :
  isfile w (report_filepath a) = false ->
  generate_monthly_report a w
  = (Returned (Error ("File '" +:+ report_filepath a +:+ "' does not exist.")), w)
  /\ Str.contains (report_filepath a)
       ("File '" +:+ report_filepath a +:+ "' does not exist.") = true.
Proof.
  intros H. split; [| apply contains_middle].
  unfold generate_monthly_report, report_body. by rewrite H.
Qed.

Lemma missing_file_is_reported_witness :
  isfile (sample_world "/informes/mayo.docx" doc_no_markers)
    (report_filepath (sample_args "/informes/junio.docx")) = false
  /\ (generate_monthly_report (sample_args "/informes/junio.docx")
        (sample_world "/informes/mayo.docx" doc_no_markers)
      = (Returned (Error ("File '" +:+ "/informes/junio.docx"
                          +:+ "' does not exist.")),
         sample_world "/informes/mayo.docx" doc_no_markers)
      /\ Str.contains "/informes/junio.docx"
           ("File '" +:+ "/informes/junio.docx" +:+ "' does not exist.") = true).
Proof.
  split; [vm_compute; reflexivity |].
  apply (missing_file_is_reported (sample_args "/informes/junio.docx")
           (sample_world "/informes/mayo.docx" doc_no_markers)).
  vm_compute; reflexivity.
Defined.

(** C9. For an existing file whose extension, in lower case, is neither
    [.doc] nor [.docx], the tool returns the unsupported-format error
    result; the file is not opened as a document: the log and the files
    are as they were. *)
Theorem unsupported_extension_is_reported (a : args) (w : world) :
  isfile w (report_filepath a) = true ->
  Str.lower (splitext (report_filepath a)).2 ∉ [".doc"; ".docx"] ->
  generate_monthly_report a w
  = (Returned (Error "Only DOC or DOCX files are supported."), w).
Proof.
  intros Hfile Hext. unfold generate_monthly_report, report_body.
  rewrite Hfile. cbn [negb]. by rewrite bool_decide_eq_false_2.
Qed.

Lemma unsupported_extension_is_reported_witness :
  isfile (sample_world "/informes/notas.TXT" doc_no_markers)
    (report_filepath (sample_args "/informes/notas.TXT")) = true
  /\ (Str.lower (splitext (report_filepath (sample_args "/informes/notas.TXT"))).2
      ∉ [".doc"; ".docx"])
  /\ generate_monthly_report (sample_args "/informes/notas.TXT")
       (sample_world "/informes/notas.TXT" doc_no_markers)
     = (Returned (Error "Only DOC or DOCX files are supported."),
        sample_world "/informes/notas.TXT" doc_no_markers).
Proof.
  assert (Str.lower (splitext (report_filepath (sample_args "/informes/notas.TXT"))).2
          ∉ [".doc"; ".docx"]) as Hext.
  { vm_compute. intros H. repeat (inversion H as [|? ? ? H']; subst; clear H; rename H' into H). }
  split; [vm_compute; reflexivity |]. split; [exact Hext |].
  apply (unsupported_extension_is_reported (sample_args "/informes/notas.TXT")
           (sample_world "/informes/notas.TXT" doc_no_markers));
    [vm_compute; reflexivity | exact Hext].
Defined.

(** C6. For an existing [.doc] or [.docx] document in which none of the
    six markers occurs, the tool returns the message that no placeholder
    was found, which is no error result, and does not save: the files
    are what they were, and the log gains the opening of the document
    only. *)
Theorem no_marker_no_save (a : args) (w : world) (doc : document)
    (writable : bool) :
  w_fs w !! report_filepath a = Some (File (Package doc) writable) ->
  Str.lower (splitext (report_filepath a)).2 ∈ [".doc"; ".docx"] ->
  no_marker_left doc = true ->
  generate_monthly_report a w
  = (Returned (Message "No placeholders found in the document."),
     {| w_fs := w_fs w; w_log := w_log w ++ [Opened (report_filepath a)] |}).
Proof.
  intros Hfile Hext Hclean. unfold generate_monthly_report, report_body.
  unfold isfile, Document. rewrite Hfile. cbn [negb].
  rewrite bool_decide_eq_true_2 by done. cbn [negb].
  by rewrite fill_clean.
Qed.

Lemma no_marker_no_save_witness :
  w_fs (sample_world "/informes/Mayo.DOCX" doc_no_markers)
    !! report_filepath (sample_args "/informes/Mayo.DOCX")
  = Some (File (Package doc_no_markers) true)
  /\ (Str.lower (splitext (report_filepath (sample_args "/informes/Mayo.DOCX"))).2
      ∈ [".doc"; ".docx"])
  /\ no_marker_left doc_no_markers = true
  /\ generate_monthly_report (sample_args "/informes/Mayo.DOCX")
       (sample_world "/informes/Mayo.DOCX" doc_no_markers)
     = (Returned (Message "No placeholders found in the document."),
        {| w_fs := w_fs (sample_world "/informes/Mayo.DOCX" doc_no_markers);
           w_log := [Opened "/informes/Mayo.DOCX"] |}).
Proof.
  assert (Str.lower (splitext (report_filepath (sample_args "/informes/Mayo.DOCX"))).2
          ∈ [".doc"; ".docx"]) as Hext.
  { vm_compute. apply list_elem_of_further, list_elem_of_here. }
  split; [vm_compute; reflexivity |]. split; [exact Hext |].
  split; [vm_compute; reflexivity |].
  apply (no_marker_no_save (sample_args "/informes/Mayo.DOCX")
           (sample_world "/informes/Mayo.DOCX" doc_no_markers)
           doc_no_markers true);
    [vm_compute; reflexivity | exact Hext | vm_compute; reflexivity].
Defined.

End Tool.

(** ** The generated tables *)

Section Tables.

Lemma create_title_header (doc : document) :
  create_table_with_header doc ["ACTIVIDADES"; "MESES"] [Inches 45; Inches 15]
  = Returned (header_table doc ["ACTIVIDADES"; "MESES"] [Inches 45; Inches 15]).
Proof.
  unfold create_table_with_header, header_table.
  by destruct (bool_decide ("Table Grid" ∈ d_styles doc)).
Qed.

Lemma create_description_header (doc : document) :
  create_table_with_header doc
    ["Actividad Planificada"; "Actividad Ejecutada"; "Verificador"]
    [Inches 25; Inches 30; Inches 15]
  = Returned (header_table doc
                ["Actividad Planificada"; "Actividad Ejecutada"; "Verificador"]
                [Inches 25; Inches 30; Inches 15]).
Proof.
  unfold create_table_with_header, header_table.
  by destruct (bool_decide ("Table Grid" ∈ d_styles doc)).
Qed.







End Tables.

Section GeneratedTables.


Lemma header_table_rows (doc : document) (headers : list string)
    (widths : list Z) :
  t_rows (header_table doc headers widths) = [zip_with header_cell headers widths].
Proof.
  unfold header_table. by destruct (bool_decide ("Table Grid" ∈ d_styles doc)).
Qed.








End GeneratedTables.

Section GeneratedTablesAtWork.




(** C4, on the code as it is: the third loop also goes through the
    tables the first loop has just built. A title row whose text holds
    [{month}] is written to the new table as it is, and the saved
    document has the month in its place. *)
Theorem row_text_is_substituted :
  (exists t,
     title_table (args_marker_in_row "/informes/mayo.docx") doc_title_marker
     = Returned t
     /\ map cell_text <$> t_rows t !! 1 = Some ["Plan de {month}"; "Mayo"])
  /\ (generate_monthly_report (args_marker_in_row "/informes/mayo.docx")
        (sample_world "/informes/mayo.docx" doc_title_marker)).1
     = Returned (Message "Replaced placeholders and saved '/informes/mayo.docx'.")
  /\ exists doc' t',
       saved_document
         (generate_monthly_report (args_marker_in_row "/informes/mayo.docx")
            (sample_world "/informes/mayo.docx" doc_title_marker)).2
         "/informes/mayo.docx" = Some doc'
       /\ tables (d_body doc') = [t']
       /\ map cell_text <$> t_rows t' !! 1 = Some ["Plan de Mayo"; "Mayo"].
Proof.
  split; [eexists; split; vm_compute; reflexivity |].
  split; [vm_compute; reflexivity |].
  eexists _, _. split; [vm_compute; reflexivity |].
  split; vm_compute; reflexivity.
Qed.

End GeneratedTablesAtWork.

(** ** What the first loop keeps *)

Section Expands.

Variables title description : py table.


Lemma expands_origin (body mid : list block) (b : block) :
  expands title description body mid ->
  b ∈ mid ->
  (b ∈ body /\ forall p, b_content b = Para p -> has_table_marker p = false)
  \/ (exists i, b = anchor_block i)
  \/ (exists i t, b = table_block i t
                  /\ (title = Returned t \/ description = Returned t)).
Proof.
  intros Hexp. induction Hexp as
    [|b0 post mid Hclean _ IH|id p t i1 i2 post mid Ht Htt _ IH
     |id p t i1 i2 post mid Ht Hd Hdt _ IH]; intros Hin.
  - by apply elem_of_nil in Hin.
  - apply elem_of_cons in Hin as [->|Hin].
    + left. split; [apply list_elem_of_here | done].
    + destruct (IH Hin) as [[H1 H2]|H]; [| by right].
      left. split; [by apply list_elem_of_further | done].
  - apply elem_of_cons in Hin as [->|Hin]; [right; left; eauto |].
    apply elem_of_cons in Hin as [->|Hin]; [right; right; eauto |].
    destruct (IH Hin) as [[H1 H2]|H]; [| by right].
    left. split; [by apply list_elem_of_further | done].
  - apply elem_of_cons in Hin as [->|Hin]; [right; left; eauto |].
    apply elem_of_cons in Hin as [->|Hin]; [right; right; eauto |].
    destruct (IH Hin) as [[H1 H2]|H]; [| by right].
    left. split; [by apply list_elem_of_further | done].
Qed.

End Expands.


(** ** What a replacement does to a paragraph and to a cell *)


Section Writes.

Variable a : args.

Lemma write_paragraph_absent (j : bool) (m v : string) (p : paragraph) :
  Str.contains m (para_text p) = false -> write_paragraph j m v p = p.
Proof. unfold write_paragraph. by intros ->. Qed.








Lemma any_in_text_markers (t : string) :
  any_in text_markers t
  = Str.contains "{activities}" t || Str.contains "{month}" t
    || Str.contains "{conclusions}" t || Str.contains "{recommendations}" t.
Proof.
  unfold any_in, text_markers. cbn [existsb].
  by rewrite orb_false_r, !orb_assoc.
Qed.













End Writes.

(** ** Alignment and frame *)

Section AlignmentAndFrame.









(** With [{activities}] and [{month}] in one text, the paragraph ends
    justified and the cell does not: writing the month to the cell makes
    its content anew after the cell was justified. *)
Example activities_and_month_in_a_cell :
  exists doc',
    fill (sample_args "/informes/mayo.docx") doc_activities_and_month
    = Returned (doc', true)
    /\ map (fun h => p_alignment h.2) (paragraphs (d_body doc'))
       = [Some JUSTIFY]
    /\ map (map (fun c => map p_alignment (cell_paragraphs c)))
           (concat (map t_rows (tables (d_body doc'))))
       = [[[None]]].
Proof.
  eexists. split; [vm_compute; reflexivity |].
  split; vm_compute; reflexivity.
Qed.




End AlignmentAndFrame.

(** ** No marker is left *)

Section Consumed.

Variable a : args.
Hypothesis Hplain : plain_values a = true.

Lemma plain_values_inv :
  has_open (activities a) = false /\ has_open (month a) = false
  /\ has_open (conclusiones a) = false /\ has_open (recommendations a) = false.
Proof.
  unfold plain_values in Hplain.
  apply andb_prop in Hplain as [[[H1 H2]%andb_prop H3]%andb_prop H4].
  by apply negb_true_iff in H1, H2, H3, H4.
Qed.

Lemma subst_text_opens (ms : list string) (t : string) :
  consumable ms = true -> opens_only ms t = true ->
  opens_only (consumed ms) (subst_text a t) = true.
Proof.
  intros [[[C1 C2]%andb_prop C3]%andb_prop C4]%andb_prop Ht.
  destruct plain_values_inv as (V1 & V2 & V3 & V4).
  unfold subst_text, consumed.
  by do 4 (apply opens_only_substitute; [done | done |]).
Qed.

(** In a template, the four replacements leave none of the four text
    markers. *)
Lemma subst_text_no_text_marker (t : string) :
  template t = true -> any_in text_markers (subst_text a t) = false.
Proof.
  intros Ht. pose proof (subst_text_opens all_markers t eq_refl Ht) as H.
  change (consumed all_markers) with [title_marker; description_marker] in H.
  rewrite any_in_text_markers.
  rewrite (opens_only_absent "{activities}" [title_marker; description_marker] _
             eq_refl eq_refl H).
  rewrite (opens_only_absent "{month}" [title_marker; description_marker] _
             eq_refl eq_refl H).
  rewrite (opens_only_absent "{conclusions}" [title_marker; description_marker] _
             eq_refl eq_refl H).
  by rewrite (opens_only_absent "{recommendations}" [title_marker; description_marker] _
             eq_refl eq_refl H).
Qed.

(** In a template without table marker, they leave none of the six. *)
Lemma subst_text_no_marker (t : string) :
  template t = true ->
  Str.contains title_marker t = false ->
  Str.contains description_marker t = false ->
  any_in all_markers (subst_text a t) = false.
Proof.
  intros Ht H1 H2.
  pose proof (opens_only_without _ _ _
                (opens_only_without _ _ _ Ht H1) H2) as Ht'.
  change (without description_marker (without title_marker all_markers))
    with text_markers in Ht'.
  pose proof (subst_text_opens text_markers t eq_refl Ht') as H.
  change (consumed text_markers) with (@nil string) in H.
  unfold any_in, all_markers, text_markers. cbn [app existsb].
  rewrite (opens_only_absent "{activities}" [] _ eq_refl eq_refl H).
  rewrite (opens_only_absent "{month}" [] _ eq_refl eq_refl H).
  rewrite (opens_only_absent "{conclusions}" [] _ eq_refl eq_refl H).
  rewrite (opens_only_absent "{recommendations}" [] _ eq_refl eq_refl H).
  rewrite (opens_only_absent title_marker [] _ eq_refl eq_refl H).
  by rewrite (opens_only_absent description_marker [] _ eq_refl eq_refl H).
Qed.

End Consumed.

(** ** The cells of the generated tables *)

Section GeneratedCells.

Lemma for_each_invariant {A S} (P : S -> Prop) (l : list A)
    (body : S -> A -> py S) (s s' : S) :
  (forall s x s', P s -> x ∈ l -> body s x = Returned s' -> P s') ->
  P s -> for_each l body s = Returned s' -> P s'.
Proof.
  revert s. induction l as [|x l IH]; intros s Hbody Hs Hrun.
  - by injection Hrun as <-.
  - cbn [for_each] in Hrun. destruct (body s x) as [s1|e] eqn:E; [| done].
    cbn [mbind py_bind] in Hrun. apply (IH s1); [| | done].
    + intros s2 y s3 H2 Hy. apply Hbody; [done | by apply list_elem_of_further].
    + apply (Hbody s x); [done | apply list_elem_of_here | done].
Qed.

(** The head of a sequence of calls in [H] returned. *)
Ltac returned H x :=
  match type of H with
  | mbind _ ?m = Returned _ =>
      let E := fresh "E" in
      destruct m as [x|] eqn:E; [cbn [mbind py_bind] in H | discriminate H]
  end.

Lemma update_cell_template (r c : nat) (f : cell -> py cell) (t t' : table) :
  (forall x x', template (cell_text x) = true -> f x = Returned x' ->
                template (cell_text x') = true) ->
  template_cells t ->
  update_cell r c f t = Returned t' ->
  template_cells t'.
Proof.
  intros Hf Ht Hrun. unfold update_cell, getitem in Hrun.
  destruct (t_rows t !! r) as [row|] eqn:Hrow; [| done].
  cbn [mbind py_bind] in Hrun.
  destruct (row !! c) as [x|] eqn:Hx; [| done].
  cbn [mbind py_bind] in Hrun. returned Hrun x'.
  injection Hrun as <-. unfold template_cells in *. cbn [t_rows set_rows].
  pose proof (Forall_lookup_1 _ _ _ _ Ht Hrow) as Hr.
  apply Forall_insert; [done |]. apply Forall_insert; [done |].
  apply (Hf x); [| done]. by apply (Forall_lookup_1 _ _ _ _ Hr Hx).
Qed.

Lemma template_cells_add_row (t : table) :
  template_cells t -> template_cells (add_row t).
Proof.
  unfold template_cells, add_row. cbn [t_rows]. intros Ht.
  apply Forall_app. split; [done |]. apply Forall_cons. split; [| done].
  induction (t_grid t) as [|g grid IH]; constructor; done.
Qed.

Lemma write_text_template (v : string) :
  template v = true ->
  forall x x' : cell,
    template (cell_text x) = true ->
    (fun c => Returned (set_cell_text v c)) x = Returned x' ->
    template (cell_text x') = true.
Proof. intros Hv x x' _ [= <-]. by rewrite cell_text_set. Qed.

Lemma write_width_template (w : Z) (x x' : cell) :
  template (cell_text x) = true ->
  (fun c => Returned (set_cell_width w c)) x = Returned x' ->
  template (cell_text x') = true.
Proof. by intros Hx [= <-]. Qed.

Lemma dict_get_template (item : gmap string string) (k v : string) :
  forallb (fun k => template (field item k)) row_keys = true ->
  k ∈ row_keys ->
  dict_get item k = Returned v -> template v = true.
Proof.
  intros Hitem Hk. rewrite forallb_forall in Hitem.
  apply list_elem_of_In, Hitem in Hk. unfold dict_get, field in *.
  destruct (item !! k) as [v'|]; [| done]. by intros [= <-].
Qed.

Lemma add_title_row_template (w1 w2 : Z) (t t' : table)
    (item : gmap string string) :
  forallb (fun k => template (field item k)) row_keys = true ->
  template_cells t ->
  add_title_row w1 w2 t item = Returned t' ->
  template_cells t'.
Proof.
  intros Hitem Ht Hrun. unfold add_title_row in Hrun.
  apply template_cells_add_row in Ht.
  returned Hrun v1. apply (dict_get_template _ _ _ Hitem) in E; [| set_solver].
  returned Hrun t1.
  apply (update_cell_template _ _ _ _ _ (write_text_template v1 E) Ht) in E0.
  returned Hrun v2. apply (dict_get_template _ _ _ Hitem) in E1; [| set_solver].
  returned Hrun t2.
  apply (update_cell_template _ _ _ _ _ (write_text_template v2 E1) E0) in E2.
  returned Hrun t3.
  apply (update_cell_template _ _ _ _ _ (write_width_template w1) E2) in E3.
  by apply (update_cell_template _ _ _ _ _ (write_width_template w2) E3) in Hrun.
Qed.

Lemma add_description_row_template (widths : list Z) (t t' : table)
    (item : gmap string string) :
  forallb (fun k => template (field item k)) row_keys = true ->
  template_cells t ->
  add_description_row widths t item = Returned t' ->
  template_cells t'.
Proof.
  intros Hitem Ht Hrun. unfold add_description_row in Hrun.
  apply template_cells_add_row in Ht.
  returned Hrun v1. apply (dict_get_template _ _ _ Hitem) in E; [| set_solver].
  returned Hrun t1.
  apply (update_cell_template _ _ _ _ _ (write_text_template v1 E) Ht) in E0.
  returned Hrun v2. apply (dict_get_template _ _ _ Hitem) in E1; [| set_solver].
  returned Hrun t2.
  apply (update_cell_template _ _ _ _ _ (write_text_template v2 E1) E0) in E2.
  returned Hrun v3. apply (dict_get_template _ _ _ Hitem) in E3; [| set_solver].
  returned Hrun t3.
  apply (update_cell_template _ _ _ _ _ (write_text_template v3 E3) E2) in E4.
  revert Hrun. apply for_each_invariant; [| done].
  intros s [j width] s' Hs _.
  apply update_cell_template; [apply write_width_template | done].
Qed.

Lemma title_table_template (a : args) (doc : document) (t : table) :
  template_rows a = true ->
  title_table a doc = Returned t -> template_cells t.
Proof.
  intros Hrows. unfold title_table. rewrite create_title_header.
  cbn [mbind py_bind]. apply for_each_invariant.
  - intros s item s' Hs Hin. apply add_title_row_template; [| done].
    unfold template_rows in Hrows. rewrite forallb_forall in Hrows.
    apply Hrows, in_app_iff. left. by apply list_elem_of_In.
  - unfold template_cells. rewrite header_table_rows.
    by repeat constructor.
Qed.

Lemma description_table_template (a : args) (doc : document) (t : table) :
  template_rows a = true ->
  description_table a doc = Returned t -> template_cells t.
Proof.
  intros Hrows. unfold description_table. rewrite create_description_header.
  cbn [mbind py_bind]. apply for_each_invariant.
  - intros s item s' Hs Hin. apply add_description_row_template; [| done].
    unfold template_rows in Hrows. rewrite forallb_forall in Hrows.
    apply Hrows, in_app_iff. right. by apply list_elem_of_In.
  - unfold template_cells. rewrite header_table_rows.
    by repeat constructor.
Qed.

End GeneratedCells.

Section FillConsumes.

Lemma in_paragraphs (body : list block) (id : nat) (p : paragraph) :
  In (id, p) (paragraphs body) <-> {| b_id := id; b_content := Para p |} ∈ body.
Proof.
  rewrite <- list_elem_of_In. unfold paragraphs. rewrite list_elem_of_omap.
  split.
  - intros ([id' [p'|t|tag]] & Hin & Heq); cbn [b_content b_id] in Heq; [| done..].
    by injection Heq as -> ->.
  - intros Hin. by eexists.
Qed.

Lemma in_tables (body : list block) (t : table) :
  In t (tables body) <-> exists id, {| b_id := id; b_content := Tbl t |} ∈ body.
Proof.
  rewrite <- list_elem_of_In. unfold tables. rewrite list_elem_of_omap.
  split.
  - intros ([id' [p'|t'|tag]] & Hin & Heq); cbn [b_content b_id] in Heq; [done | | done].
    injection Heq as ->. by exists id'.
  - intros [id Hin]. by eexists.
Qed.

Lemma in_cells (body : list block) (c : cell) :
  In c (concat (concat (map t_rows (tables body))))
  <-> exists id t row,
        {| b_id := id; b_content := Tbl t |} ∈ body
        /\ In row (t_rows t) /\ In c row.
Proof.
  rewrite in_concat. split.
  - intros (row & Hrow & Hc). apply in_concat in Hrow as (rows & Hrows & Hrow).
    apply in_map_iff in Hrows as (t & <- & Ht).
    apply in_tables in Ht as [id Ht]. by exists id, t, row.
  - intros (id & t & row & Ht & Hrow & Hc). exists row. split; [| done].
    apply in_concat. exists (t_rows t). split; [| done].
    apply in_map, in_tables. by exists id.
Qed.

(** The core of C1, on the open document. *)
Lemma fill_consumes (a : args) (doc doc' : document) (r : bool) :
  NoDup (ids (d_body doc)) ->
  plain_values a = true ->
  template_rows a = true ->
  template_document doc = true ->
  fill a doc = Returned (doc', r) ->
  forallb (fun t => negb (any_in all_markers t)) (paragraph_texts doc') = true
  /\ forallb (fun t => negb (any_in text_markers t)) (cell_texts doc') = true.
Proof.
  intros Hnd Hplain Hrows Hdoc Hfill.
  destruct (fill_spec a doc doc' r Hnd Hfill) as (mid & Hexp & Hbody & _).
  unfold template_document in Hdoc. rewrite forallb_app in Hdoc.
  apply andb_prop in Hdoc as [Hp Hc]. rewrite forallb_forall in Hp, Hc.
  split; apply forallb_forall; intros text Hin.
  - unfold paragraph_texts in Hin.
    apply in_map_iff in Hin as ([id p'] & <- & Hh). cbn [snd].
    apply in_paragraphs in Hh. rewrite Hbody in Hh.
    apply list_elem_of_fmap in Hh as (b & Heq & Hb).
    destruct b as [id0 [p|t|tag]]; unfold text_block in Heq;
      cbn [b_content b_id] in Heq; [| done..].
    injection Heq as -> ->. rewrite replace_in_paragraph_text.
    apply negb_true_iff.
    destruct (expands_origin _ _ _ _ _ Hexp Hb)
      as [[Hin Hclean]|[[i Hi]|(i & t & Hi & _)]]; [| | done].
    + specialize (Hclean p eq_refl). unfold has_table_marker in Hclean.
      apply orb_false_elim in Hclean as [H1 H2].
      apply subst_text_no_marker; [done | | done..].
      apply Hp. unfold paragraph_texts.
      apply (in_map (fun h => para_text h.2) _ (id0, p)). by apply in_paragraphs.
    + injection Hi as -> ->. by apply subst_text_no_marker.
  - unfold cell_texts in Hin. apply in_map_iff in Hin as (c' & <- & Hc').
    apply in_cells in Hc' as (id & t' & row' & Ht' & Hrow' & Hc').
    rewrite Hbody in Ht'. apply list_elem_of_fmap in Ht' as (b & Heq & Hb).
    destruct b as [id0 [p|t|tag]]; unfold text_block in Heq;
      cbn [b_content b_id] in Heq; [done | | done].
    injection Heq as -> ->. cbn [t_rows set_rows] in Hrow'.
    apply in_map_iff in Hrow' as (row & <- & Hrow).
    apply in_map_iff in Hc' as (c & <- & Hcin).
    rewrite replace_in_cell_text. apply negb_true_iff.
    apply subst_text_no_text_marker; [done |].
    destruct (expands_origin _ _ _ _ _ Hexp Hb)
      as [[Hin _]|[[i Hi]|(i & t0 & Hi & Hgen)]]; [| done |].
    + apply Hc. unfold cell_texts. apply in_map, in_cells.
      by exists id0, t, row.
    + injection Hi as -> ->.
      assert (template_cells t0) as Ht.
      { destruct Hgen as [Hgen|Hgen].
        - by apply (title_table_template a doc).
        - by apply (description_table_template a doc). }
      unfold template_cells in Ht. rewrite Forall_forall in Ht.
      apply list_elem_of_In, Ht in Hrow. rewrite Forall_forall in Hrow.
      by apply list_elem_of_In, Hrow in Hcin.
Qed.

End FillConsumes.

(** ** A successful call *)

Section Success.


(** Why the texts are asked to be templates and the values to have no
    opening brace: a value that is a marker stays in the text when its
    marker has had its turn, and a marker cut in two by another one
    comes together when that one is replaced by nothing. *)
Example value_brings_marker :
  subst_text (args_with_month "/informes/mayo.docx" "{activities}") "Mes: {month}"
  = "Mes: {activities}".
Proof. vm_compute. reflexivity. Qed.

Example marker_comes_together :
  subst_text (args_with_month "/informes/mayo.docx" EmptyString) "{mon{month}th}"
  = "{month}".
Proof. vm_compute. reflexivity. Qed.




End Success.

(** * Further properties of the filler *)

Section FirstLoopOrder.

(** X1. The first loop deals with the paragraphs in the order of the
    body: what it leaves is the body with every paragraph that had a
    table marker replaced, at its own place, by an anchor paragraph and
    its table, whatever was replaced before it; the style list and the
    block width stay, and the flag is up exactly when a paragraph had a
    table marker. *)
Theorem table_pass_in_order (a : args) (doc doc' : document) (r : bool) :
  NoDup (ids (d_body doc)) ->
  table_pass a doc = Returned (doc', r) ->
  expands (title_table a doc) (description_table a doc)
    (d_body doc) (d_body doc')
  /\ d_styles doc' = d_styles doc
  /\ d_block_width doc' = d_block_width doc
  /\ r = existsb (fun h => has_table_marker h.2) (paragraphs (d_body doc)).
Proof.
  intros Hnd Hrun. unfold table_pass in Hrun.
  destruct (table_loop_expands a (d_body doc) [] doc false doc' r eq_refl Hnd Hrun)
    as (mid & H1 & H2 & H3 & H4 & H5).
  rewrite app_nil_l in H1. rewrite H1. by rewrite orb_false_l in H5.
Qed.

End FirstLoopOrder.

Lemma table_pass_in_order_witness :
  NoDup (ids (d_body doc_template))
  /\ table_pass (sample_args "/informes/mayo.docx") doc_template
     = Returned (doc_template_tables, true)
  /\ expands (title_table (sample_args "/informes/mayo.docx") doc_template)
       (description_table (sample_args "/informes/mayo.docx") doc_template)
       (d_body doc_template) (d_body doc_template_tables)
  /\ d_styles doc_template_tables = d_styles doc_template
  /\ d_block_width doc_template_tables = d_block_width doc_template
  /\ true = existsb (fun h => has_table_marker h.2)
              (paragraphs (d_body doc_template)).
Proof.
  assert (NoDup (ids (d_body doc_template))) as Hnd.
  { apply (bool_decide_unpack _). vm_compute. exact I. }
  assert (table_pass (sample_args "/informes/mayo.docx") doc_template
          = Returned (doc_template_tables, true)) as Hrun.
  { vm_compute. reflexivity. }
  split; [exact Hnd |]. split; [exact Hrun |].
  exact (table_pass_in_order (sample_args "/informes/mayo.docx")
           doc_template doc_template_tables true Hnd Hrun).
Defined.

(** ** What the three loops can raise *)

Section Raises.











End Raises.

(** ** The files after a call *)

Section FilesAfter.


(** The call that returns the message of success leaves the document the
    three loops returned, in a file that can be written. *)
Lemma success_file (a : args) (w w' : world) (doc : document) (writable : bool) :
  w_fs w !! report_filepath a = Some (File (Package doc) writable) ->
  generate_monthly_report a w
  = (Returned (Message (success_message (report_filepath a))), w') ->
  exists doc',
    fill a doc = Returned (doc', true)
    /\ w_fs w' !! report_filepath a = Some (File (Package doc') true)
    /\ Str.lower (splitext (report_filepath a)).2 ∈ [".doc"; ".docx"].
Proof.
  intros Hfile. unfold generate_monthly_report, report_body, isfile, Document.
  rewrite Hfile. cbn [negb].
  destruct (bool_decide _) eqn:Hext; cbn [negb]; [| done].
  apply bool_decide_eq_true_1 in Hext.
  destruct (fill a doc) as [[doc' [|]]|e]; [| | done].
  - unfold save. cbn [w_fs]. rewrite Hfile. destruct writable; [| done].
    intros [= <-]. exists doc'. split; [done |].
    cbn [w_fs]. by rewrite lookup_insert_eq.
  - by intros [=].
Qed.

(** A document whose paragraphs hold none of the six markers and whose
    cells hold none of the four text markers goes through the three
    loops unchanged, with the flag down. *)
Lemma fill_settled (a : args) (doc : document) :
  forallb (fun t => negb (any_in all_markers t)) (paragraph_texts doc) = true ->
  forallb (fun t => negb (any_in text_markers t)) (cell_texts doc) = true ->
  fill a doc = Returned (doc, false).
Proof.
  intros Hp Hc.
  assert (existsb (fun h => has_table_marker h.2) (paragraphs (d_body doc))
          = false
          /\ existsb (fun h => any_in text_markers (para_text h.2))
               (paragraphs (d_body doc)) = false) as [Hp1 Hp2].
  { unfold paragraph_texts in Hp. rewrite forallb_forall in Hp.
    split; apply not_true_is_false; intros (h & Hin & Hh)%existsb_exists;
      specialize (Hp (para_text h.2) (in_map _ _ _ Hin));
      apply negb_true_iff, any_in_all_markers in Hp as (H1 & H2 & H3).
    - unfold has_table_marker in Hh. by rewrite H2, H3 in Hh.
    - congruence. }
  assert (existsb (fun c => any_in text_markers (cell_text c))
            (concat (concat (map t_rows (tables (d_body doc))))) = false) as Hc1.
  { unfold cell_texts in Hc. rewrite forallb_forall in Hc.
    apply not_true_is_false. intros (c & Hin & Hh)%existsb_exists.
    specialize (Hc (cell_text c) (in_map _ _ _ Hin)).
    apply negb_true_iff in Hc. congruence. }
  unfold fill, table_pass. rewrite table_loop_clean by done.
  cbn [mbind py_bind].
  rewrite paragraph_pass_map, para_block_clean by done.
  rewrite tables_pass_map, cells_block_clean by done.
  rewrite Hp2, Hc1. by destruct doc.
Qed.

(** X5. After a successful call on a template, with values without
    opening brace, a second call with the same arguments finds nothing
    to replace: it returns the message that no placeholder was found
    and does not save. *)
Theorem second_call_finds_nothing (a : args) (w w' : world) (doc : document)
    (writable : bool) :
  w_fs w !! report_filepath a = Some (File (Package doc) writable) ->
  NoDup (ids (d_body doc)) ->
  plain_values a = true ->
  template_rows a = true ->
  template_document doc = true ->
  generate_monthly_report a w
  = (Returned (Message (success_message (report_filepath a))), w') ->
  generate_monthly_report a w'
  = (Returned (Message "No placeholders found in the document."),
     {| w_fs := w_fs w'; w_log := w_log w' ++ [Opened (report_filepath a)] |}).
Proof.
  intros Hfile Hnd Hplain Hrows Hdoc Hrun.
  destruct (success_file a w w' doc writable Hfile Hrun)
    as (doc' & Hfill & Hfile' & Hext).
  destruct (fill_consumes a doc doc' true Hnd Hplain Hrows Hdoc Hfill)
    as [Hp Hc].
  unfold generate_monthly_report, report_body, isfile, Document.
  rewrite Hfile'. cbn [negb]. rewrite bool_decide_eq_true_2 by done.
  cbn [negb]. by rewrite fill_settled.
Qed.

Lemma second_call_finds_nothing_witness :
  w_fs (sample_world "/informes/mayo.docx" doc_template)
    !! report_filepath (sample_args "/informes/mayo.docx")
  = Some (File (Package doc_template) true)
  /\ NoDup (ids (d_body doc_template))
  /\ plain_values (sample_args "/informes/mayo.docx") = true
  /\ template_rows (sample_args "/informes/mayo.docx") = true
  /\ template_document doc_template = true
  /\ generate_monthly_report (sample_args "/informes/mayo.docx")
       (sample_world "/informes/mayo.docx" doc_template)
     = (Returned (Message (success_message "/informes/mayo.docx")),
        (generate_monthly_report (sample_args "/informes/mayo.docx")
           (sample_world "/informes/mayo.docx" doc_template)).2)
  /\ (generate_monthly_report (sample_args "/informes/mayo.docx")
        (generate_monthly_report (sample_args "/informes/mayo.docx")
           (sample_world "/informes/mayo.docx" doc_template)).2).1
     = Returned (Message "No placeholders found in the document.").
Proof.
  assert (NoDup (ids (d_body doc_template))) as Hnd.
  { apply (bool_decide_unpack _). vm_compute. exact I. }
  assert (generate_monthly_report (sample_args "/informes/mayo.docx")
            (sample_world "/informes/mayo.docx" doc_template)
          = (Returned (Message (success_message "/informes/mayo.docx")),
             (generate_monthly_report (sample_args "/informes/mayo.docx")
                (sample_world "/informes/mayo.docx" doc_template)).2)) as Hrun.
  { vm_compute. reflexivity. }
  split; [vm_compute; reflexivity |]. split; [exact Hnd |].
  split; [vm_compute; reflexivity |]. split; [vm_compute; reflexivity |].
  split; [vm_compute; reflexivity |]. split; [exact Hrun |].
  rewrite (second_call_finds_nothing (sample_args "/informes/mayo.docx")
             (sample_world "/informes/mayo.docx" doc_template) _
             doc_template true eq_refl Hnd eq_refl eq_refl eq_refl Hrun).
  reflexivity.
Defined.

End FilesAfter.

(** ** Runs *)

Section Runs.

Variable a : args.

Lemma write_paragraph_same_text (j : bool) (m v : string) (p1 p2 : paragraph) :
  same_text p1 p2 ->
  same_text (write_paragraph j m v p1) (write_paragraph j m v p2)
  /\ (Str.contains m (para_text p1) = true ->
      write_paragraph j m v p1 = write_paragraph j m v p2).
Proof.
  intros (Hs & Ha & Ht). unfold write_paragraph. rewrite <- Ht.
  destruct (Str.contains m (para_text p1)).
  - assert (set_para_text (Str.replace m v (para_text p1)) p1
            = set_para_text (Str.replace m v (para_text p1)) p2) as Heq.
    { unfold set_para_text. by rewrite Hs, Ha. }
    rewrite Heq. split; [| done]. by split_and!.
  - split; [by split_and! | done].
Qed.

(** X6. What the second loop makes of a paragraph with a text marker
    depends on the style, the alignment and the text of the paragraph
    only, not on how the text is cut into runs: a marker that lies across
    several runs is replaced like one in a single run. *)
Theorem runs_do_not_matter (p1 p2 : paragraph) (r : bool) :
  same_text p1 p2 ->
  any_in text_markers (para_text p1) = true ->
  replace_in_paragraph a p1 r = replace_in_paragraph a p2 r.
Proof.
  intros Hsame Hany. pose proof Hsame as (_ & _ & Ht).
  rewrite !replace_in_paragraph_unfold, <- Ht, Hany. f_equal.
  rewrite any_in_text_markers in Hany.
  destruct (write_paragraph_same_text true "{activities}" (activities a)
              _ _ Hsame) as [S1 E1].
  destruct (write_paragraph_same_text false "{month}" (month a) _ _ S1)
    as [S2 E2].
  destruct (write_paragraph_same_text true "{conclusions}" (conclusiones a)
              _ _ S2) as [S3 E3].
  destruct (write_paragraph_same_text true "{recommendations}"
              (recommendations a) _ _ S3) as [S4 E4].
  destruct (Str.contains "{activities}" (para_text p1)) eqn:C1.
  { by rewrite (E1 eq_refl). }
  rewrite (write_paragraph_absent _ _ _ p1 C1) in *.
  destruct (Str.contains "{month}" (para_text p1)) eqn:C2.
  { by rewrite (E2 eq_refl). }
  rewrite (write_paragraph_absent _ _ _ p1 C2) in *.
  destruct (Str.contains "{conclusions}" (para_text p1)) eqn:C3.
  { by rewrite (E3 eq_refl). }
  rewrite (write_paragraph_absent _ _ _ p1 C3) in *.
  cbn [orb] in Hany. by apply E4.
Qed.

End Runs.

Lemma runs_do_not_matter_witness :
  same_text paragraph_three_runs paragraph_one_run
  /\ any_in text_markers (para_text paragraph_three_runs) = true
  /\ replace_in_paragraph (sample_args "/informes/mayo.docx")
       paragraph_three_runs false
     = replace_in_paragraph (sample_args "/informes/mayo.docx")
         paragraph_one_run false.
Proof.
  assert (same_text paragraph_three_runs paragraph_one_run) as Hs.
  { split; [reflexivity |]. split; [reflexivity |]. vm_compute. reflexivity. }
  split; [exact Hs |]. split; [vm_compute; reflexivity |].
  exact (runs_do_not_matter (sample_args "/informes/mayo.docx")
           paragraph_three_runs paragraph_one_run false Hs eq_refl).
Defined.


(** ** The header of a generated table *)

Section Header.











End Header.

(** ** The rows of a generated table *)

Section Rows.









End Rows.

(** ** The pattern of month names *)

Section Pattern.









End Pattern.

(** ** [change_month_in_name] *)

Section Renaming.


Lemma is_error_rename_error (filename e : string) :
  is_error (rename_error filename e).
Proof. exact I. Qed.









End Renaming.

Section Collisions.









End Collisions.

(** ** [extract_text_from_pdfs] *)

Section Extraction.

Lemma fold_insert_lookup (g : string -> string) (l : list string)
    (m0 : gmap string string) (f : string) :
  fold_left (fun m k => <[ k := g k ]> m) l m0 !! f
  = if bool_decide (f ∈ l) then Some (g f) else m0 !! f.
Proof.
  revert m0. induction l as [|k l IH]; intros m0; [done |].
  cbn [fold_left]. rewrite IH.
  destruct (decide (f = k)) as [->|Hne].
  - rewrite lookup_insert_eq, (bool_decide_eq_true_2 (k ∈ k :: l));
      [| apply list_elem_of_here].
    by case_bool_decide.
  - rewrite lookup_insert_ne by done.
    case_bool_decide as Hin.
    + rewrite bool_decide_eq_true_2; [done | by apply list_elem_of_further].
    + rewrite bool_decide_eq_false_2; [done |].
      by intros [?|?]%elem_of_cons.
Qed.

Lemma elem_of_filter_bool (P : string -> bool) (l : list string) (f : string) :
  f ∈ List.filter P l <-> f ∈ l /\ P f = true.
Proof.
  rewrite !list_elem_of_In. apply filter_In.
Qed.

Lemma is_pdf_error : is_pdf "error" = false.
Proof. reflexivity. Qed.

Lemma extracted_lookup (sys : system) (folder : string) (w : world)
    (names : list string) (f : string) :
  isdir w folder = true ->
  os_listdir sys w folder = inr names ->
  List.filter is_pdf names <> [] ->
  extract_text_from_pdfs sys folder w !! f
  = if bool_decide (f ∈ names) && is_pdf f
    then Some (extracted_entry sys w folder f)
    else None.
Proof.
  intros Hdir Hlist Hsome. unfold extract_text_from_pdfs.
  rewrite Hdir, Hlist. cbn [negb].
  destruct (List.filter is_pdf names) as [|n pdfs] eqn:Hpdfs; [done |].
  rewrite <- Hpdfs.
  rewrite (fold_insert_lookup (extracted_entry sys w folder)).
  rewrite lookup_empty.
  case_bool_decide as Hin.
  - apply elem_of_filter_bool in Hin as [Hin ->].
    by rewrite bool_decide_eq_true_2.
  - case_bool_decide as Hin'; [| done].
    destruct (is_pdf f) eqn:Hf; [| done].
    exfalso. apply Hin. by apply elem_of_filter_bool.
Qed.

(** X17. When the folder has a name that ends in [.pdf], the dictionary
    the tool returns has one key for each listed name that ends in
    [.pdf], whatever the case of its letters, and no other key: the
    value is the text of the pages of the file, or, when the reader
    raised, the message of the error of that file. The failure of one
    file leaves the entries of the others as they are. *)
Theorem every_pdf_gets_an_entry (sys : system) (folder : string) (w : world)
    (names : list string) (f : string) :
  isdir w folder = true ->
  os_listdir sys w folder = inr names ->
  List.filter is_pdf names <> [] ->
  extract_text_from_pdfs sys folder w !! f
  = if bool_decide (f ∈ names) && is_pdf f
    then Some (extracted_entry sys w folder f)
    else None.
Proof. apply extracted_lookup. Qed.

Lemma every_pdf_gets_an_entry_witness :
  isdir sample_folder "/informes" = true
  /\ os_listdir sample_system sample_folder "/informes" = inr sample_names
  /\ List.filter is_pdf sample_names <> []
  /\ extract_text_from_pdfs sample_system "/informes" sample_folder
       !! "notas.PDF"
     = if bool_decide ("notas.PDF" ∈ sample_names) && is_pdf "notas.PDF"
       then Some (extracted_entry sample_system sample_folder "/informes"
                    "notas.PDF")
       else None.
Proof.
  assert (List.filter is_pdf sample_names <> []) as Hsome.
  { vm_compute. discriminate. }
  split; [reflexivity |]. split; [vm_compute; reflexivity |].
  split; [exact Hsome |].
  exact (every_pdf_gets_an_entry sample_system "/informes" sample_folder
           sample_names "notas.PDF" eq_refl eq_refl Hsome).
Defined.

(** X18. The dictionary has the key [error] exactly when the tool gave
    up: the folder is not a directory, it could not be listed, or it has
    no name that ends in [.pdf]. The texts of a folder are never taken
    for an error, and an error never for a text. *)
Theorem error_key_means_failure (sys : system) (folder : string) (w : world) :
  is_Some (extract_text_from_pdfs sys folder w !! "error")
  <-> isdir w folder = false
      \/ (exists e, os_listdir sys w folder = inl e)
      \/ (exists names, os_listdir sys w folder = inr names
                        /\ List.filter is_pdf names = []).
Proof.
  destruct (isdir w folder) eqn:Hdir.
  2: { unfold extract_text_from_pdfs. rewrite Hdir. cbn [negb].
       rewrite lookup_singleton_eq. split; [by left | by eexists]. }
  destruct (os_listdir sys w folder) as [e|names] eqn:Hlist.
  { unfold extract_text_from_pdfs. rewrite Hdir, Hlist. cbn [negb].
    rewrite lookup_singleton_eq. split; [| by eexists].
    intros _. right. left. by exists e. }
  destruct (List.filter is_pdf names) as [|n pdfs] eqn:Hpdfs.
  { unfold extract_text_from_pdfs. rewrite Hdir, Hlist, Hpdfs. cbn [negb].
    rewrite lookup_singleton_eq. split; [| by eexists].
    intros _. right. right. by exists names. }
  rewrite (extracted_lookup sys folder w names) by (done || by rewrite Hpdfs).
  rewrite is_pdf_error, andb_false_r. split.
  - by intros [? ?].
  - intros [?|[[e ?]|(names' & [= <-] & Hnone)]]; try done.
    by rewrite Hpdfs in Hnone.
Qed.

Lemma length_append (a b : string) :
  String.length (a +:+ b) = String.length a + String.length b.
Proof.
  induction a as [|c a IH]; [done |].
  rewrite append_cons. cbn [String.length]. by rewrite IH.
Qed.

Lemma take_drop (n : nat) (s : string) : Str.take n s +:+ Str.drop n s = s.
Proof.
  revert s. induction n as [|n IH]; intros s.
  - by destruct s.
  - destruct s as [|c s]; [done |]. cbn [Str.take Str.drop].
    by rewrite append_cons, IH.
Qed.

Lemma endswith_iff (suffix s : string) :
  endswith suffix s = true <-> exists stem, s = stem +:+ suffix.
Proof.
  unfold endswith. split.
  - intros [_ Heq%String.eqb_eq]%andb_true_iff.
    exists (Str.take (String.length s - String.length suffix) s).
    rewrite <- Heq at 2. by rewrite take_drop.
  - intros [stem ->]. rewrite length_append. apply andb_true_iff. split.
    + apply Nat.leb_le. lia.
    + replace (String.length stem + String.length suffix - String.length suffix)
        with (String.length stem) by lia.
      rewrite drop_append. apply String.eqb_refl.
Qed.

Lemma lower_append (a b : string) :
  Str.lower (a +:+ b) = Str.lower a +:+ Str.lower b.
Proof.
  induction a as [|c a IH]; [done |].
  rewrite append_cons. cbn [Str.lower]. by rewrite append_cons, IH.
Qed.

Lemma lower_split (s a b : string) :
  Str.lower s = a +:+ b ->
  exists s1 s2, s = s1 +:+ s2 /\ Str.lower s1 = a /\ Str.lower s2 = b.
Proof.
  revert s. induction a as [|c a IH]; intros s Hs.
  - by exists EmptyString, s.
  - rewrite append_cons in Hs. destruct s as [|d s]; [done |].
    cbn [Str.lower] in Hs. injection Hs as Hd Hs.
    destruct (IH _ Hs) as (s1 & s2 & -> & H1 & H2).
    exists (String d s1), s2. rewrite append_cons. cbn [Str.lower].
    by rewrite Hd, H1.
Qed.

(** X19. What the tool takes for a PDF: a name whose end, whatever the
    case of its letters, is [.pdf]. The name may be nothing but the
    extension. *)
Theorem pdf_names (f : string) :
  is_pdf f = true
  <-> exists stem ext, f = stem +:+ ext /\ Str.lower ext = ".pdf".
Proof.
  unfold is_pdf. rewrite endswith_iff. split.
  - intros [stem' Hf]. destruct (lower_split _ _ _ Hf) as (stem & ext & -> & _ & H).
    by exists stem, ext.
  - intros (stem & ext & -> & Hext). exists (Str.lower stem).
    by rewrite lower_append, Hext.
Qed.

End Extraction.
